(** * go-vcr recorder: a shallow embedding of [recorder.go]

    The recorder sits in the transport slot of an HTTP client.  In
    recording mode it forwards a request to its destination and appends
    the exchange to a cassette; in replaying mode it answers from the
    cassette.  Go pointers ([*http.Request], [*cassette.Cassette],
    [*bytes.Buffer]) are locations in an explicit store, Go's
    [(value, error)] results are [Res], and a Go [panic] is a separate
    outcome of a computation. *)

From stdpp Require Import base strings gmap list.
From Stdlib Require Import ZArith.

Local Open Scope Z_scope.

(** ** Errors and results *)

(** A location of the store; [nil] is any location the store does not hold. *)
Abbreviation loc := positive.

(** Go [error] values, by the kinds the recorder can tell apart. *)
Inductive error :=
| ENOENT (path : string)
| EACCES (path : string)
| ErrInteractionNotFound
| Errorf (msg : string).

(** [err.Error()] *)
Definition Error (e : error) : string :=
  match e with
  | ENOENT p => p +:+ ": no such file or directory"
  | EACCES p => p +:+ ": permission denied"
  | ErrInteractionNotFound => "requested interaction not found"
  | Errorf msg => msg
  end.

(** A Go result [(v, err)]: a value with [err == nil], or an error. *)
Inductive Res (A : Type) :=
| Ok (a : A)
| Err (e : error).
Arguments Ok {A} a.
Arguments Err {A} e.

(** ** Streams *)

(** [io.Reader] values, each with the bytes it has not yet delivered. *)
Inductive Reader :=
| BytesReader (unread : string)
| ErrReader (unread : string) (e : error)
| NopCloser (r : Reader)
| TeeReader (r : Reader) (w : loc).

(** [buf.Write(data)] on the buffer at [w]. *)
Definition Buffer_Write (w : loc) (data : string)
    (bufs : gmap positive string) : gmap positive string :=
  alter (λ old, old +:+ data) w bufs.

(** [ioutil.ReadAll]: the bytes delivered, the error that ended the read
    if it was not end-of-file, the reader afterwards and the buffers the
    tees wrote to. *)
Fixpoint ReadAll (rd : Reader) (bufs : gmap positive string)
    : string * option error * Reader * gmap positive string :=
  match rd with
  | BytesReader u => (u, None, BytesReader "", bufs)
  | ErrReader u e => (u, Some e, ErrReader "" e, bufs)
  | NopCloser r =>
      let '(data, err, r', bufs') := ReadAll r bufs in
      (data, err, NopCloser r', bufs')
  | TeeReader r w =>
      let '(data, err, r', bufs') := ReadAll r bufs in
      (data, err, TeeReader r' w, Buffer_Write w data bufs')
  end.

(** [http.NoBody]: the body with no bytes. *)
Definition NoBody : Reader := BytesReader "".

(** ** Package [net/http]: the types the recorder touches *)

Module http.

Module Request.
Record t := mk {
  Method : string;
  URL : string;
  Header : gmap string (list string);
  Body : option Reader;
  PostForm : gmap string (list string)
}.

(** [r.Body = b] *)
Definition set_Body (b : option Reader) (r : t) : t :=
  mk (Method r) (URL r) (Header r) b (PostForm r).
End Request.

Module Response.
Record t := mk {
  Status : string;
  StatusCode : Z;
  Proto : string;
  ProtoMajor : Z;
  ProtoMinor : Z;
  Request : positive;
  Header : gmap string (list string);
  Close : bool;
  ContentLength : Z;
  Body : Reader
}.
End Response.

End http.

(** ** Package [cassette]: data *)

Module cassette.

Module Request.
Record t := mk {
  Body : string;
  Form : gmap string (list string);
  Headers : gmap string (list string);
  URL : string;
  Method : string
}.
End Request.

Module Response.
Record t := mk {
  Body : string;
  Headers : gmap string (list string);
  Status : string;
  Code : Z
}.
End Response.

Module Interaction.
Record t := mk {
  Request : Request.t;
  Response : Response.t
}.
End Interaction.

Module Cassette.
Record t := mk {
  Name : string;
  File : string;
  Version : Z;
  Interactions : list Interaction.t
}.

Definition set_Interactions (l : list Interaction.t) (c : t) : t :=
  mk (Name c) (File c) (Version c) l.

Definition set_contents (v : Z) (l : list Interaction.t) (c : t) : t :=
  mk (Name c) (File c) v l.
End Cassette.

End cassette.

Global Instance cassette_Request_eq_dec : EqDecision cassette.Request.t.
Proof. solve_decision. Defined.
Global Instance cassette_Response_eq_dec : EqDecision cassette.Response.t.
Proof. solve_decision. Defined.
Global Instance cassette_Interaction_eq_dec : EqDecision cassette.Interaction.t.
Proof. solve_decision. Defined.

(** ** The store and the world *)

(** What durable storage holds under a path: a file with its bytes, or
    a path that denies access (stat, open and create all fail). *)
Inductive Node :=
| File (data : string)
| Forbidden.

(** Input and output the program performs, in order.  [EvSend] is one
    call of the HTTP client with a request of that method and URL: the
    client may put several requests on the wire for it (it follows
    redirects) or none (a refused connection). *)
Inductive Event :=
| EvStat (path : string)
| EvRead (path : string)
| EvWrite (path : string)
| EvSend (method url : string).

Record State := mkState {
  requests : gmap positive http.Request.t;
  cassettes : gmap positive cassette.Cassette.t;
  buffers : gmap positive string;
  fs : gmap string Node;
  trace : list Event
}.

Definition set_requests (f : gmap positive http.Request.t → gmap positive http.Request.t)
    (s : State) : State :=
  mkState (f (requests s)) (cassettes s) (buffers s) (fs s) (trace s).
Definition set_cassettes
    (f : gmap positive cassette.Cassette.t → gmap positive cassette.Cassette.t)
    (s : State) : State :=
  mkState (requests s) (f (cassettes s)) (buffers s) (fs s) (trace s).
Definition set_buffers (f : gmap positive string → gmap positive string)
    (s : State) : State :=
  mkState (requests s) (cassettes s) (f (buffers s)) (fs s) (trace s).
Definition set_fs (f : gmap string Node → gmap string Node) (s : State) : State :=
  mkState (requests s) (cassettes s) (buffers s) (f (fs s)) (trace s).
Definition log (e : Event) (s : State) : State :=
  mkState (requests s) (cassettes s) (buffers s) (fs s) (trace s ++ [e]).

(** ** Computations *)

(** A computation ends normally with a value, or panics; either way it
    leaves a state behind. *)
Inductive Exec (A : Type) :=
| Done (a : A) (s : State)
| Panicked (v : error) (s : State).
Arguments Done {A} a s.
Arguments Panicked {A} v s.

Definition M (A : Type) : Type := State → Exec A.

Definition final {A} (x : Exec A) : State :=
  match x with Done _ s => s | Panicked _ s => s end.

Global Instance M_ret : MRet M := λ A a s, Done a s.
Global Instance M_bind : MBind M := λ A B k m s,
  match m s with
  | Done a s' => k a s'
  | Panicked v s' => Panicked v s'
  end.

Definition panic {A} (v : error) : M A := λ s, Panicked v s.
Definition get : M State := λ s, Done s s.
Definition modify (f : State → State) : M unit := λ s, Done tt (f s).

(** The panic of a nil dereference. *)
Definition nil_deref : error :=
  Errorf "runtime error: invalid memory address or nil pointer dereference".

(** [*r] for a request pointer. *)
Definition load_request (r : positive) : M http.Request.t := λ s,
  match requests s !! r with
  | Some v => Done v s
  | None => Panicked nil_deref s
  end.

(** [*c] for a cassette pointer. *)
Definition load_cassette (c : positive) : M cassette.Cassette.t := λ s,
  match cassettes s !! c with
  | Some v => Done v s
  | None => Panicked nil_deref s
  end.

(** ** The world outside the package

    Routines of the Go library and of the cassette package whose results
    depend on wire formats, on the remote destination or on a matching
    policy.  The recorder is verified for every such world. *)

(** What a destination sends back: the status line and code, the
    headers, the body bytes, and the error that cuts the body short if
    the connection breaks while it is read. *)
Record Answer := mkAnswer {
  ans_Status : string;
  ans_StatusCode : Z;
  ans_Header : gmap string (list string);
  ans_Body : string;
  ans_BodyErr : option error
}.

Class World := {
  (** the wire form [httputil.DumpRequestOut] writes for a method, a URL,
      headers and body bytes *)
  wire : string → string → gmap string (list string) → string → Res string;
  (** [http.ReadRequest] on wire bytes *)
  ReadRequest : string → Res http.Request.t;
  (** [req.ParseForm()]: the request with its form fields filled in, and
      the error if the form is malformed *)
  ParseForm : http.Request.t → http.Request.t * option error;
  (** the destination: what one call of the client for a method, a URL,
      headers and body bytes ends in, after any redirects, given
      everything that happened before *)
  remote : list Event → string → string → gmap string (list string) → string
           → Res Answer;
  (** whether a call that fails had read the request body before it
      failed; a refused connection reads nothing *)
  reads_before_failure : list Event → string → string → gmap string (list string)
                         → string → bool;
  (** the cassette's matching policy *)
  matches : http.Request.t → cassette.Interaction.t → bool;
  (** the cassette's file format *)
  marshal : Z → list cassette.Interaction.t → Res string;
  unmarshal : string → Res (Z * list cassette.Interaction.t)
}.

Section Package.

Context `{W : World}.

(** ** Package [os] *)

(** [os.Stat(path)], keeping the error only. *)
Definition os_Stat (path : string) : M (option error) :=
  _ ← modify (log (EvStat path));
  s ← get;
  match fs s !! path with
  | None => mret (Some (ENOENT path))
  | Some Forbidden => mret (Some (EACCES path))
  | Some (File _) => mret None
  end.

(** [os.IsNotExist(err)] *)
Definition os_IsNotExist (err : option error) : bool :=
  match err with
  | Some (ENOENT _) => true
  | _ => false
  end.

(** ** Package [bytes] *)

(** [&bytes.Buffer{}]: a fresh, empty buffer. *)
Definition new_Buffer : M loc := λ s,
  let w := fresh (dom (buffers s)) in
  Done w (set_buffers (insert w "") s).

(** [buf.String()] *)
Definition Buffer_String (w : loc) : M string := λ s,
  match buffers s !! w with
  | Some data => Done data s
  | None => Panicked nil_deref s
  end.

(** ** Package [httputil] and the HTTP client *)

(** [httputil.DumpRequestOut(r, true)].  The routine drains the body and
    leaves the request with an in-memory copy holding the same bytes; a
    request without a body is left with [http.NoBody]; when the drain
    fails the request keeps the body it had, read as far as it went. *)
Definition DumpRequestOut (r : loc) : M (Res string) :=
  req ← load_request r;
  match http.Request.Body req with
  | None =>
      _ ← modify (set_requests (insert r (http.Request.set_Body (Some NoBody) req)));
      mret (wire (http.Request.Method req) (http.Request.URL req)
                 (http.Request.Header req) "")
  | Some b =>
      s ← get;
      let '(data, err, b', bufs) := ReadAll b (buffers s) in
      _ ← modify (set_buffers (λ _, bufs));
      match err with
      | Some e =>
          _ ← modify (set_requests (insert r (http.Request.set_Body (Some b') req)));
          mret (Err e)
      | None =>
          _ ← modify (set_requests (insert r
                 (http.Request.set_Body (Some (NopCloser (BytesReader data))) req)));
          mret (wire (http.Request.Method req) (http.Request.URL req)
                     (http.Request.Header req) data)
      end
  end.

(** The response object the client builds for request [r] from what the
    destination sent. *)
Definition received (r : loc) (a : Answer) : http.Response.t :=
  http.Response.mk (ans_Status a) (ans_StatusCode a) "HTTP/1.1" 1 1 r
    (ans_Header a) false (Z.of_nat (String.length (ans_Body a)))
    (match ans_BodyErr a with
     | None => NopCloser (BytesReader (ans_Body a))
     | Some e => NopCloser (ErrReader (ans_Body a) e)
     end).

(** [http.DefaultClient.Do(r)]: one call of the client.  When the call
    succeeds the request body has been read to its end and the response
    is the destination's; when it fails the body has been read or not,
    as the world has it; a body that fails while it is read fails the
    call. *)
Definition DefaultClient_Do (r : loc) : M (Res http.Response.t) :=
  req ← load_request r;
  s ← get;
  _ ← modify (log (EvSend (http.Request.Method req) (http.Request.URL req)));
  match http.Request.Body req with
  | None =>
      match remote (trace s) (http.Request.Method req) (http.Request.URL req)
                   (http.Request.Header req) "" with
      | Err e => mret (Err e)
      | Ok a => mret (Ok (received r a))
      end
  | Some b =>
      let '(data, err, b', bufs) := ReadAll b (buffers s) in
      let read : M unit :=
        _ ← modify (set_buffers (λ _, bufs));
        modify (set_requests (insert r (http.Request.set_Body (Some b') req))) in
      match err with
      | Some e => _ ← read; mret (Err e)
      | None =>
          match remote (trace s) (http.Request.Method req) (http.Request.URL req)
                       (http.Request.Header req) data with
          | Ok a => _ ← read; mret (Ok (received r a))
          | Err e =>
              if reads_before_failure (trace s) (http.Request.Method req)
                   (http.Request.URL req) (http.Request.Header req) data
              then _ ← read; mret (Err e)
              else mret (Err e)
          end
      end
  end.

(** [ioutil.ReadAll(body)] as the recorder uses it: the bytes, or the
    error. *)
Definition ioutil_ReadAll (body : Reader) : M (Res string) :=
  s ← get;
  let '(data, err, _, bufs) := ReadAll body (buffers s) in
  _ ← modify (set_buffers (λ _, bufs));
  mret (match err with Some e => Err e | None => Ok data end).


(** ** Package [cassette]: operations *)

(** Modelled from the spec: [cassette.New], the spec's
    [createEmpty(name) → Cassette]; the package is not part of the
    sources at hand.  It allocates an empty cassette stored under
    [name.yaml]. *)
Definition cassette_New (name : string) : M loc := λ s,
  let c := fresh (dom (cassettes s)) in
  Done c (set_cassettes
            (insert c (cassette.Cassette.mk name (name +:+ ".yaml") 1 [])) s).

(** Modelled from the spec: [cassette.Load], the spec's
    [load(name) → Cassette or failure].  It reads the cassette's file
    and decodes it; a missing, unreadable or undecodable file is a
    failure. *)
Definition cassette_Load (name : string) : M (Res loc) :=
  c ← cassette_New name;
  cv ← load_cassette c;
  _ ← modify (log (EvRead (cassette.Cassette.File cv)));
  s ← get;
  match fs s !! cassette.Cassette.File cv with
  | None => mret (Err (ENOENT (cassette.Cassette.File cv)))
  | Some Forbidden => mret (Err (EACCES (cassette.Cassette.File cv)))
  | Some (File data) =>
      match unmarshal data with
      | Err e => mret (Err e)
      | Ok (v, l) =>
          _ ← modify (set_cassettes (insert c (cassette.Cassette.set_contents v l cv)));
          mret (Ok c)
      end
  end.

(** Modelled from the spec: [Cassette.Save], the spec's
    [save(cassette) → success or failure].  It encodes the cassette and
    writes the bytes to the cassette's file. *)
Definition Cassette_Save (c : loc) : M (option error) :=
  cv ← load_cassette c;
  match marshal (cassette.Cassette.Version cv) (cassette.Cassette.Interactions cv) with
  | Err e => mret (Some e)
  | Ok data =>
      _ ← modify (log (EvWrite (cassette.Cassette.File cv)));
      s ← get;
      match fs s !! cassette.Cassette.File cv with
      | Some Forbidden => mret (Some (EACCES (cassette.Cassette.File cv)))
      | _ =>
          _ ← modify (set_fs (insert (cassette.Cassette.File cv) (File data)));
          mret None
      end
  end.

(** Modelled from the spec: [Cassette.GetInteraction], the spec's
    [findMatch(cassette, request) → Interaction or not-found].  A pure
    lookup: the first stored interaction the matching policy accepts. *)
Definition Cassette_GetInteraction (c r : loc) : M (Res cassette.Interaction.t) :=
  cv ← load_cassette c;
  req ← load_request r;
  match find (matches req) (cassette.Cassette.Interactions cv) with
  | Some i => mret (Ok i)
  | None => mret (Err ErrInteractionNotFound)
  end.

(** Modelled from the spec: [Cassette.AddInteraction], the spec's
    [append(cassette, interaction)]: the interaction goes to the end of
    the in-memory list. *)
Definition Cassette_AddInteraction (c : loc) (i : cassette.Interaction.t) : M unit :=
  cv ← load_cassette c;
  modify (set_cassettes (insert c
    (cassette.Cassette.set_Interactions (cassette.Cassette.Interactions cv ++ [i]) cv))).

(** ** Package [recorder] *)

(** Recorder states *)
Definition ModeRecording : Z := 0.
Definition ModeReplaying : Z := 1.

(** Transport either records or replays responses from a cassette,
    depending on its mode.  The fields are [c] and [mode] of the
    source. *)
Record Transport := mkTransport {
  c : loc;
  t_mode : Z
}.

(** Recorder: its mode, its cassette and the transport clients inject,
    the fields [mode], [cassette] and [Transport] of the source.  The
    recorder and its transport hold the same cassette pointer. *)
Record Recorder := mkRecorder {
  mode : Z;
  cassette_of : loc;
  transport_of : Transport
}.

(** Proxies client requests to their original destination. *)
Definition requestHandler (r : loc) (c : loc) (mode : Z)
    : M (Res cassette.Interaction.t) :=
  if decide (mode = ModeReplaying) then
    Cassette_GetInteraction c r
  else
    reqBytes ← DumpRequestOut r;
    match reqBytes with
    | Err err => mret (Err err)
    | Ok reqBytes =>
    match ReadRequest reqBytes with
    | Err err => mret (Err err)
    | Ok copiedReq =>
    let '(copiedReq, err) := ParseForm copiedReq in
    match err with
    | Some err => mret (Err err)
    | None =>
    reqBody ← new_Buffer;
    req ← load_request r;
    _ ← match http.Request.Body req with
        | Some body =>
            modify (set_requests (insert r
              (http.Request.set_Body (Some (NopCloser (TeeReader body reqBody))) req)))
        | None => mret tt
        end;
    resp ← DefaultClient_Do r;
    match resp with
    | Err err => mret (Err err)
    | Ok resp =>
    respBody ← ioutil_ReadAll (http.Response.Body resp);
    match respBody with
    | Err err => mret (Err err)
    | Ok respBody =>
    req ← load_request r;
    captured ← Buffer_String reqBody;
    let interaction :=
      cassette.Interaction.mk
        (cassette.Request.mk captured (http.Request.PostForm copiedReq)
           (http.Request.Header req) (http.Request.URL req) (http.Request.Method req))
        (cassette.Response.mk respBody (http.Response.Header resp)
           (http.Response.Status resp) (http.Response.StatusCode resp)) in
    _ ← Cassette_AddInteraction c interaction;
    mret (Ok interaction)
    end end end end end.

(** New creates a new recorder. *)
Definition New (cassetteName : string) : M (Res Recorder) :=
  let cassetteFile := cassetteName +:+ ".yaml" in
  err ← os_Stat cassetteFile;
  if os_IsNotExist err then
    c ← cassette_New cassetteName;
    mret (Ok (mkRecorder ModeRecording c (mkTransport c ModeRecording)))
  else
    lc ← cassette_Load cassetteName;
    match lc with
    | Err err => mret (Err err)
    | Ok c => mret (Ok (mkRecorder ModeReplaying c (mkTransport c ModeReplaying)))
    end.

(** Stop is used to stop the recorder and save any recorded
    interactions. *)
Definition Stop (r : Recorder) : M (option error) :=
  if decide (mode r = ModeRecording) then
    err ← Cassette_Save (cassette_of r);
    match err with
    | Some err => mret (Some err)
    | None => mret None
    end
  else mret None.

(** RoundTrip implements the [http.RoundTripper] interface. *)
Definition RoundTrip (t : Transport) (r : loc) : M (Res http.Response.t) :=
  res ← requestHandler r (c t) (t_mode t);
  match res with
  | Err err =>
      req ← load_request r;
      panic (Errorf ("Failed to process request for URL " +:+ http.Request.URL req
                     +:+ ": " +:+ Error err))
  | Ok interaction =>
      let buf := cassette.Response.Body (cassette.Interaction.Response interaction) in
      mret (Ok (http.Response.mk
        (cassette.Response.Status (cassette.Interaction.Response interaction))
        (cassette.Response.Code (cassette.Interaction.Response interaction))
        "HTTP/1.0" 1 0 r
        (cassette.Response.Headers (cassette.Interaction.Response interaction))
        true
        (Z.of_nat (String.length buf))
        (NopCloser (BytesReader buf))))
  end.

(** CancelRequest implements the [CancelableTransport] interface: a
    no-op. *)
Definition CancelRequest (t : Transport) (req : loc) : M unit := mret tt.

(** ** The record path, flattened

    What the steps of the record path compute, written without the
    monad; the properties section proves that [requestHandler] agrees
    with [record_path]. *)

(** The state and result [DumpRequestOut] leaves for a request [req]
    found at [r]. *)
Definition dumped (r : loc) (req : http.Request.t) (s : State) : Res string * State :=
  match http.Request.Body req with
  | None =>
      (wire (http.Request.Method req) (http.Request.URL req) (http.Request.Header req) "",
       set_requests (insert r (http.Request.set_Body (Some NoBody) req)) s)
  | Some b =>
      let '(data, err, b', bufs) := ReadAll b (buffers s) in
      match err with
      | Some e =>
          (Err e, set_requests (insert r (http.Request.set_Body (Some b') req))
                    (set_buffers (λ _, bufs) s))
      | None =>
          (wire (http.Request.Method req) (http.Request.URL req)
                (http.Request.Header req) data,
           set_requests (insert r
               (http.Request.set_Body (Some (NopCloser (BytesReader data))) req))
             (set_buffers (λ _, bufs) s))
      end
  end.

(** The result and state [DefaultClient_Do] leaves for a request [req]
    found at [r]. *)
Definition sent (r : loc) (req : http.Request.t) (s : State)
    : Res http.Response.t * State :=
  let ev := EvSend (http.Request.Method req) (http.Request.URL req) in
  let ask (data : string) : Res Answer :=
    remote (trace s) (http.Request.Method req) (http.Request.URL req)
           (http.Request.Header req) data in
  match http.Request.Body req with
  | None =>
      (match ask "" with Err e => Err e | Ok a => Ok (received r a) end, log ev s)
  | Some b =>
      let '(data, err, b', bufs) := ReadAll b (buffers s) in
      let s0 := set_requests (insert r (http.Request.set_Body (Some b') req))
                  (set_buffers (λ _, bufs) (log ev s)) in
      match err with
      | Some e => (Err e, s0)
      | None =>
          match ask data with
          | Ok a => (Ok (received r a), s0)
          | Err e =>
              (Err e,
               if reads_before_failure (trace s) (http.Request.Method req)
                    (http.Request.URL req) (http.Request.Header req) data
               then s0 else log ev s)
          end
      end
  end.

(** The request body bytes a full read delivers, the error that ends
    the read and the buffers afterwards; a request without a body
    delivers nothing. *)
Definition drained (req : http.Request.t) (s : State)
    : string * option error * gmap positive string :=
  match http.Request.Body req with
  | None => ("", None, buffers s)
  | Some b => let '(data, err, _, bufs) := ReadAll b (buffers s) in (data, err, bufs)
  end.

(** The interaction built from a request, its captured body, the form
    fields of its copy and the destination's answer. *)
Definition exchange (req : http.Request.t) (data : string)
    (form : gmap string (list string)) (a : Answer) : cassette.Interaction.t :=
  cassette.Interaction.mk
    (cassette.Request.mk data form (http.Request.Header req)
       (http.Request.URL req) (http.Request.Method req))
    (cassette.Response.mk (ans_Body a) (ans_Header a) (ans_Status a) (ans_StatusCode a)).

(** The body [DumpRequestOut] leaves in the request: [http.NoBody] for
    a request that had none, an in-memory copy of the bytes otherwise. *)
Definition copied (req : http.Request.t) (data : string) : Reader :=
  match http.Request.Body req with
  | None => NoBody
  | Some _ => NopCloser (BytesReader data)
  end.

(** The state after a call of the client that read the request body:
    the request's body is the tee, with nothing left to read, and the
    capture buffer holds the bytes. *)
Definition called_state (r : loc) (req : http.Request.t) (data : string)
    (bufs : gmap positive string) (s : State) : State :=
  let w := fresh (dom bufs) in
  mkState
    (<[r := http.Request.set_Body
              (Some (NopCloser (TeeReader (copied req "") w))) req]> (requests s))
    (cassettes s)
    (<[w := data]> bufs)
    (fs s)
    (trace s ++ [EvSend (http.Request.Method req) (http.Request.URL req)]).

(** The state after a call of the client that failed before it read the
    request body: the tee is installed and the capture buffer empty. *)
Definition refused_state (r : loc) (req : http.Request.t) (data : string)
    (bufs : gmap positive string) (s : State) : State :=
  let w := fresh (dom bufs) in
  mkState
    (<[r := http.Request.set_Body
              (Some (NopCloser (TeeReader (copied req data) w))) req]> (requests s))
    (cassettes s)
    (<[w := ""]> bufs)
    (fs s)
    (trace s ++ [EvSend (http.Request.Method req) (http.Request.URL req)]).

(** The state after a successful capture: [called_state] with the
    interaction appended to the cassette. *)
Definition recorded_state (r c : loc) (req : http.Request.t) (data : string)
    (bufs : gmap positive string) (cv : cassette.Cassette.t)
    (i : cassette.Interaction.t) (s : State) : State :=
  set_cassettes
    (insert c (cassette.Cassette.set_Interactions
                 (cassette.Cassette.Interactions cv ++ [i]) cv))
    (called_state r req data bufs s).

Definition record_path (r c : loc) (req : http.Request.t) (s : State)
    : Exec (Res cassette.Interaction.t) :=
  match dumped r req s with
  | (Err e, s1) => Done (Err e) s1
  | (Ok bytes, s1) =>
  match ReadRequest bytes with
  | Err e => Done (Err e) s1
  | Ok cr =>
  match ParseForm cr with
  | (_, Some e) => Done (Err e) s1
  | (cr', None) =>
      let '(data, _, bufs) := drained req s in
      let s4 := called_state r req data bufs s in
      match remote (trace s) (http.Request.Method req) (http.Request.URL req)
                   (http.Request.Header req) data with
      | Err e =>
          Done (Err e)
            (if reads_before_failure (trace s) (http.Request.Method req)
                  (http.Request.URL req) (http.Request.Header req) data
             then s4 else refused_state r req data bufs s)
      | Ok a =>
      match ans_BodyErr a with
      | Some e => Done (Err e) s4
      | None =>
      match cassettes s !! c with
      | None => Panicked nil_deref s4
      | Some cv =>
          let i := exchange req data (http.Request.PostForm cr') a in
          Done (Ok i) (recorded_state r c req data bufs cv i s)
      end end end
  end end end.

(** The state in which [cassette_Load] reads the file: the cassette
    object is allocated and the read is on the trace. *)
Definition loading (name : string) (s : State) : State :=
  log (EvRead (name +:+ ".yaml"))
    (set_cassettes
       (insert (fresh (dom (cassettes s)))
          (cassette.Cassette.mk name (name +:+ ".yaml") 1 [])) s).

End Package.

(** ** Sequences of operations on a recorder *)

Inductive Op :=
| OpRoundTrip (r : loc)
| OpCancelRequest (r : loc)
| OpStop.

Section Sessions.

Context `{W : World}.

Definition step (rec : Recorder) (o : Op) : M unit :=
  match o with
  | OpRoundTrip r => _ ← RoundTrip (transport_of rec) r; mret tt
  | OpCancelRequest r => CancelRequest (transport_of rec) r
  | OpStop => _ ← Stop rec; mret tt
  end.

(** The operations in order; a panic ends the run. *)
Fixpoint run (rec : Recorder) (ops : list Op) : M unit :=
  match ops with
  | [] => mret tt
  | o :: ops' => _ ← step rec o; run rec ops'
  end.

End Sessions.

(** ** A fake backend

    One destination, [http://example.test/a], answers 200 with body
    [ok]; every other destination refuses the connection.  The cassette
    matches on method and URL. *)

Module Fake.

Definition answer : Answer :=
  mkAnswer "200 OK" 200 {["Content-Type" := ["text/plain"]]} "ok" None.

Definition recorded : cassette.Interaction.t :=
  cassette.Interaction.mk
    (cassette.Request.mk "" ∅ ∅ "http://example.test/a" "GET")
    (cassette.Response.mk "ok" {["Content-Type" := ["text/plain"]]} "200 OK" 200).

Definition posted : cassette.Interaction.t :=
  cassette.Interaction.mk
    (cassette.Request.mk "x=1" ∅ ∅ "http://example.test/a" "POST")
    (cassette.Response.mk "ok" {["Content-Type" := ["text/plain"]]} "200 OK" 200).

#[export] Instance world : World := {|
  wire m u h b := Ok (m +:+ " " +:+ u +:+ " " +:+ b);
  ReadRequest bytes := Ok (http.Request.mk "GET" "/a" ∅ None ∅);
  ParseForm r := (r, None);
  remote tr m u h b :=
    if decide (u = "http://example.test/a") then Ok answer
    else Err (Errorf "dial tcp: connection refused");
  reads_before_failure tr m u h b := false;
  matches req i :=
    bool_decide
      (http.Request.Method req = cassette.Request.Method (cassette.Interaction.Request i)
       ∧ http.Request.URL req = cassette.Request.URL (cassette.Interaction.Request i));
  marshal v l :=
    match l with
    | [] => Ok "[]"
    | _ => if decide (l = [recorded]) then Ok "recorded" else Err (Errorf "yaml: cannot encode")
    end;
  unmarshal data :=
    if decide (data = "recorded") then Ok (1, [recorded])
    else if decide (data = "[]") then Ok (1, [])
    else Err (Errorf "yaml: cannot decode")
|}.

Definition get_a : http.Request.t :=
  http.Request.mk "GET" "http://example.test/a" ∅ None ∅.

Definition post_a : http.Request.t :=
  http.Request.mk "POST" "http://example.test/a" ∅ (Some (BytesReader "x=1")) ∅.

Definition get_down : http.Request.t :=
  http.Request.mk "GET" "http://unreachable.test/" ∅ None ∅.

(** A store with the three requests at 1, 2 and 3, no cassette and no
    file on disk. *)
Definition s0 : State :=
  mkState {[ 1%positive := get_a; 2%positive := post_a; 3%positive := get_down ]}
    ∅ ∅ ∅ [].

(** The same store with a cassette [demo] holding [l] at 1. *)
Definition store (l : list cassette.Interaction.t) : State :=
  mkState {[ 1%positive := get_a; 2%positive := post_a; 3%positive := get_down ]}
    {[ 1%positive := cassette.Cassette.mk "demo" "demo.yaml" 1 l ]}
    ∅ ∅ [].

Definition player : Recorder :=
  mkRecorder ModeReplaying 1%positive (mkTransport 1%positive ModeReplaying).

Definition taper : Recorder :=
  mkRecorder ModeRecording 1%positive (mkTransport 1%positive ModeRecording).

(** The response [RoundTrip] makes of [recorded] for the request at [r]. *)
Definition replayed (r : loc) : http.Response.t :=
  http.Response.mk "200 OK" 200 "HTTP/1.0" 1 0 r
    {["Content-Type" := ["text/plain"]]} true 2 (NopCloser (BytesReader "ok")).

(** Another process: one request at 7 and the storage of [s]. *)
Definition restarted (s : State) : State :=
  mkState {[ 7%positive := get_a ]} ∅ ∅ (fs s) [].

End Fake.

(** ** Counting operations *)

(** The number of round trips in a sequence of operations. *)
Fixpoint round_trips (ops : list Op) : nat :=
  match ops with
  | [] => 0%nat
  | OpRoundTrip _ :: ops' => S (round_trips ops')
  | _ :: ops' => round_trips ops'
  end.

(** ** Faulty backends

    [forms] is the fake backend with a form that does not parse; [cut]
    is the fake backend whose destination breaks the connection while
    the response body is read. *)

Module Faulty.

Definition forms : World := {|
  wire m u h b := Ok (m +:+ " " +:+ u +:+ " " +:+ b);
  ReadRequest bytes := Ok (http.Request.mk "GET" "/a" ∅ None ∅);
  ParseForm r := (r, Some (Errorf "invalid semicolon separator in query"));
  remote tr m u h b := Ok Fake.answer;
  reads_before_failure tr m u h b := false;
  matches req i := false;
  marshal v l := Err (Errorf "yaml: cannot encode");
  unmarshal data := Err (Errorf "yaml: cannot decode")
|}.

Definition cut : World := {|
  wire m u h b := Ok (m +:+ " " +:+ u +:+ " " +:+ b);
  ReadRequest bytes := Ok (http.Request.mk "GET" "/a" ∅ None ∅);
  ParseForm r := (r, None);
  remote tr m u h b :=
    Ok (mkAnswer "200 OK" 200 ∅ "o" (Some (Errorf "unexpected EOF")));
  reads_before_failure tr m u h b := false;
  matches req i := false;
  marshal v l := Err (Errorf "yaml: cannot encode");
  unmarshal data := Err (Errorf "yaml: cannot decode")
|}.

End Faulty.

(** ** A backend that changes its answer

    The destination answers the first call with 200 and body [first],
    every later call with 500 and body [second].  The cassette matches
    on method and URL. *)

Module Twice.

Definition first : Answer := mkAnswer "200 OK" 200 ∅ "first" None.
Definition second : Answer := mkAnswer "500 Internal Server Error" 500 ∅ "second" None.

(** Whether the client was called before. *)
Definition called (tr : list Event) : bool :=
  existsb (λ e, match e with EvSend _ _ => true | _ => false end) tr.

(** [GET http://example.test/a] answered by [first] and by [second], and
    a [POST] of [x=1] answered by [first]. *)
Definition get_first : cassette.Interaction.t :=
  cassette.Interaction.mk
    (cassette.Request.mk "" ∅ ∅ "http://example.test/a" "GET")
    (cassette.Response.mk "first" ∅ "200 OK" 200).

Definition get_second : cassette.Interaction.t :=
  cassette.Interaction.mk
    (cassette.Request.mk "" ∅ ∅ "http://example.test/a" "GET")
    (cassette.Response.mk "second" ∅ "500 Internal Server Error" 500).

Definition post_first : cassette.Interaction.t :=
  cassette.Interaction.mk
    (cassette.Request.mk "x=1" ∅ ∅ "http://example.test/a" "POST")
    (cassette.Response.mk "first" ∅ "200 OK" 200).

Definition world : World := {|
  wire m u h b := Ok (m +:+ " " +:+ u +:+ " " +:+ b);
  ReadRequest bytes := Ok (http.Request.mk "GET" "/a" ∅ None ∅);
  ParseForm r := (r, None);
  remote tr m u h b := if called tr then Ok second else Ok first;
  reads_before_failure tr m u h b := false;
  matches req i :=
    bool_decide
      (http.Request.Method req = cassette.Request.Method (cassette.Interaction.Request i)
       ∧ http.Request.URL req = cassette.Request.URL (cassette.Interaction.Request i));
  marshal v l :=
    if decide (l = [get_first; get_second]) then Ok "same"
    else if decide (l = [post_first; get_second]) then Ok "mixed"
    else Err (Errorf "yaml: cannot encode");
  unmarshal data :=
    if decide (data = "same") then Ok (1, [get_first; get_second])
    else if decide (data = "mixed") then Ok (1, [post_first; get_second])
    else Err (Errorf "yaml: cannot decode")
|}.

(** The response [RoundTrip] makes of [get_second] for the request at [r]. *)
Definition failed (r : loc) : http.Response.t :=
  http.Response.mk "500 Internal Server Error" 500 "HTTP/1.0" 1 0 r ∅ true 6
    (NopCloser (BytesReader "second")).

(** A session that records the same request twice: the states after
    [New], after each round trip and after [Stop]. *)
Definition created : State := final (@New world "demo" Fake.s0).
Definition once : State :=
  final (@RoundTrip world (transport_of Fake.taper) 1%positive created).
Definition twice : State :=
  final (@RoundTrip world (transport_of Fake.taper) 1%positive once).
Definition stopped : State := final (@Stop world Fake.taper twice).

(** A session that records a [POST] and then the [GET]. *)
Definition posted_once : State :=
  final (@run world Fake.taper [OpRoundTrip 2%positive] created).
Definition then_got : State :=
  final (@RoundTrip world (transport_of Fake.taper) 1%positive posted_once).
Definition then_idle : State :=
  final (@run world Fake.taper [OpCancelRequest 1%positive] then_got).
Definition then_stopped : State := final (@Stop world Fake.taper then_idle).

End Twice.

(** * Properties *)

Section Properties.

Context `{W : World}.

(** ** Running computations *)

Lemma bind_Done {A B} (m : M A) (k : A → M B) s a s' :
  m s = Done a s' → (x ← m; k x) s = k a s'.
Proof. intros H. unfold mbind, M_bind. by rewrite H. Qed.

Lemma bind_Panicked_run {A B} (m : M A) (k : A → M B) s v s' :
  m s = Panicked v s' → (x ← m; k x) s = Panicked v s'.
Proof. intros H. unfold mbind, M_bind. by rewrite H. Qed.

Lemma bind_inv {A B} (m : M A) (k : A → M B) s b s' :
  (x ← m; k x) s = Done b s' → ∃ a s1, m s = Done a s1 ∧ k a s1 = Done b s'.
Proof.
  unfold mbind, M_bind. destruct (m s) as [a s1|v s1]; [eauto | discriminate].
Qed.

(** Unfolds the monad and the primitive state accesses. *)
Ltac run_monad :=
  unfold mbind, M_bind, mret, M_ret, modify, get, panic,
    load_request, load_cassette in *;
  cbn [requests cassettes buffers fs trace set_requests set_cassettes
       set_buffers set_fs log final] in *.

(** ** Replaying *)

Lemma GetInteraction_final c r s : final (Cassette_GetInteraction c r s) = s.
Proof.
  unfold Cassette_GetInteraction. run_monad.
  repeat case_match; simplify_eq; reflexivity.
Qed.

Lemma requestHandler_replay_final r c s :
  final (requestHandler r c ModeReplaying s) = s.
Proof.
  unfold requestHandler. rewrite decide_True by reflexivity.
  apply GetInteraction_final.
Qed.

Lemma RoundTrip_replay_final t r s :
  t_mode t = ModeReplaying → final (RoundTrip t r s) = s.
Proof.
  intros Hm. unfold RoundTrip. rewrite Hm.
  pose proof (requestHandler_replay_final r (c t) s) as Hf.
  unfold mbind, M_bind.
  destruct (requestHandler r (c t) ModeReplaying s) as [[i|e] s1|v s1];
    simpl in Hf; subst s1; run_monad; repeat case_match; simplify_eq; reflexivity.
Qed.

Lemma Stop_replay rec s : mode rec ≠ ModeRecording → Stop rec s = Done None s.
Proof. intros Hm. unfold Stop. by rewrite decide_False. Qed.

Lemma step_replay_final rec o s :
  mode rec = ModeReplaying → t_mode (transport_of rec) = ModeReplaying →
  final (step rec o s) = s.
Proof.
  intros Hm Ht. destruct o as [r|r|]; simpl.
  - pose proof (RoundTrip_replay_final (transport_of rec) r s Ht) as Hf.
    unfold mbind, M_bind.
    destruct (RoundTrip (transport_of rec) r s); simpl in *; done.
  - reflexivity.
  - rewrite (bind_Done _ _ s None s); [reflexivity|].
    apply Stop_replay. rewrite Hm. discriminate.
Qed.

Lemma run_replay_final rec ops s :
  mode rec = ModeReplaying → t_mode (transport_of rec) = ModeReplaying →
  final (run rec ops s) = s.
Proof.
  intros Hm Ht. revert s. induction ops as [|o ops IH]; intros s; [reflexivity|].
  simpl. pose proof (step_replay_final rec o s Hm Ht) as Hf.
  unfold mbind, M_bind.
  destruct (step rec o s) as [[] s1|v s1]; simpl in Hf; subst s1; [apply IH | reflexivity].
Qed.

(** ** The steps of the record path *)

Lemma load_request_inv r s v s1 :
  load_request r s = Done v s1 → s1 = s ∧ requests s !! r = Some v.
Proof. unfold load_request. destruct (requests s !! r); intros; simplify_eq. done. Qed.

Lemma load_request_Some r s v :
  requests s !! r = Some v → load_request r s = Done v s.
Proof. unfold load_request. by intros ->. Qed.

Lemma load_cassette_inv c s v s1 :
  load_cassette c s = Done v s1 → s1 = s ∧ cassettes s !! c = Some v.
Proof. unfold load_cassette. destruct (cassettes s !! c); intros; simplify_eq. done. Qed.

Lemma load_cassette_Some c s v :
  cassettes s !! c = Some v → load_cassette c s = Done v s.
Proof. unfold load_cassette. by intros ->. Qed.

Lemma DumpRequestOut_eq r s req :
  requests s !! r = Some req →
  DumpRequestOut r s = Done (dumped r req s).1 (dumped r req s).2.
Proof.
  intros Hr. unfold DumpRequestOut, dumped.
  rewrite (bind_Done _ _ s req s) by by apply load_request_Some.
  destruct (http.Request.Body req) as [b|]; [|reflexivity].
  run_monad. destruct (ReadAll b (buffers s)) as [[[data [e|]] rd] bufs]; reflexivity.
Qed.

Lemma DefaultClient_Do_eq r s req :
  requests s !! r = Some req →
  DefaultClient_Do r s = Done (sent r req s).1 (sent r req s).2.
Proof.
  intros Hr. unfold DefaultClient_Do, sent.
  rewrite (bind_Done _ _ s req s) by by apply load_request_Some.
  run_monad.
  destruct (http.Request.Body req) as [b|].
  - destruct (ReadAll b (buffers s)) as [[[data [e|]] rd] bufs]; [reflexivity|].
    destruct (remote _ _ _ _ _); [reflexivity|].
    destruct (reads_before_failure _ _ _ _ _); reflexivity.
  - destruct (remote _ _ _ _ _); reflexivity.
Qed.

Lemma ioutil_ReadAll_eq body s :
  ioutil_ReadAll body s =
    Done (match (ReadAll body (buffers s)).1.1.2 with
          | Some e => Err e
          | None => Ok (ReadAll body (buffers s)).1.1.1
          end)
         (set_buffers (λ _, (ReadAll body (buffers s)).2) s).
Proof.
  unfold ioutil_ReadAll. run_monad.
  destruct (ReadAll body (buffers s)) as [[[data err] rd] bufs]. reflexivity.
Qed.

Lemma AddInteraction_Some c i s cv :
  cassettes s !! c = Some cv →
  Cassette_AddInteraction c i s =
    Done tt (set_cassettes (insert c (cassette.Cassette.set_Interactions
           (cassette.Cassette.Interactions cv ++ [i]) cv)) s).
Proof.
  intros Hc. unfold Cassette_AddInteraction.
  by rewrite (bind_Done _ _ s cv s) by by apply load_cassette_Some.
Qed.

Lemma Buffer_String_Some w s d :
  buffers s !! w = Some d → Buffer_String w s = Done d s.
Proof. unfold Buffer_String. by intros ->. Qed.

(** Projections of explicit states and requests. *)
Ltac proj :=
  cbn [requests cassettes buffers fs trace set_requests set_cassettes
       set_buffers set_fs log final fst snd
       http.Request.Method http.Request.URL http.Request.Header
       http.Request.Body http.Request.PostForm http.Request.set_Body] in *.

(** Runs the first step of a bind whose outcome is known. *)
Ltac fwd :=
  erewrite bind_Done;
  [|reflexivity ||
    (apply load_request_Some; proj; try apply lookup_insert_eq; eassumption)].

(** The last steps of the record path, from the read of the response
    body on, are the same with and without a request body. *)
Lemma record_tail r c s4 req4 w data (a : Answer) form :
  requests s4 !! r = Some req4 → buffers s4 !! w = Some data →
  (respBody ← ioutil_ReadAll (http.Response.Body (received r a));
   match respBody with
   | Err err => mret (Err err)
   | Ok respBody =>
       req ← load_request r;
       captured ← Buffer_String w;
       let interaction :=
         cassette.Interaction.mk
           (cassette.Request.mk captured form
              (http.Request.Header req) (http.Request.URL req) (http.Request.Method req))
           (cassette.Response.mk respBody (http.Response.Header (received r a))
              (http.Response.Status (received r a))
              (http.Response.StatusCode (received r a))) in
       _ ← Cassette_AddInteraction c interaction;
       mret (Ok interaction)
   end) s4 =
  match ans_BodyErr a with
  | Some e => Done (Err e) (set_buffers (λ _, buffers s4) s4)
  | None =>
      match cassettes s4 !! c with
      | None => Panicked nil_deref (set_buffers (λ _, buffers s4) s4)
      | Some cv =>
          Done (Ok (exchange req4 data form a))
            (set_cassettes
               (insert c (cassette.Cassette.set_Interactions
                  (cassette.Cassette.Interactions cv ++ [exchange req4 data form a]) cv))
               (set_buffers (λ _, buffers s4) s4))
      end
  end.
Proof.
  intros Hr Hw.
  erewrite bind_Done by apply ioutil_ReadAll_eq.
  unfold received.
  cbn [http.Response.Body http.Response.Header http.Response.Status
       http.Response.StatusCode].
  destruct (ans_BodyErr a) as [e|]; cbn [ReadAll fst snd]; [reflexivity|].
  erewrite bind_Done by (apply load_request_Some; proj; exact Hr).
  erewrite bind_Done by (apply Buffer_String_Some; proj; exact Hw).
  destruct (cassettes s4 !! c) as [cv|] eqn:Hc.
  - erewrite bind_Done by (apply AddInteraction_Some; proj; exact Hc). reflexivity.
  - unfold Cassette_AddInteraction, mbind, M_bind, load_cassette. proj.
    by rewrite Hc.
Qed.

Lemma requestHandler_record_nil r c mode s :
  mode ≠ ModeReplaying → requests s !! r = None →
  requestHandler r c mode s = Panicked nil_deref s.
Proof.
  intros Hmode Hr. unfold requestHandler. rewrite decide_False by done.
  unfold DumpRequestOut, mbind, M_bind, load_request. by rewrite Hr.
Qed.

(** In recording mode [requestHandler] computes [record_path]. *)
Lemma requestHandler_record_eq r c mode s req :
  mode ≠ ModeReplaying → requests s !! r = Some req →
  requestHandler r c mode s = record_path r c req s.
Proof.
  intros Hmode Hr. unfold requestHandler, record_path. rewrite decide_False by done.
  erewrite bind_Done by (apply DumpRequestOut_eq; exact Hr).
  unfold dumped, drained, recorded_state, called_state, refused_state, copied, NoBody.
  destruct (http.Request.Body req) as [b|] eqn:Hb.
  - destruct (ReadAll b (buffers s)) as [[[data [e|]] rd] bufs] eqn:Hra; cbn [fst snd];
      [reflexivity|].
    destruct (wire _ _ _ data) as [bytes|e]; [|reflexivity].
    destruct (ReadRequest bytes) as [cr|e]; [|reflexivity].
    destruct (ParseForm cr) as [cr' [e|]]; [reflexivity|].
    fwd. unfold new_Buffer. proj. fwd. proj.
    fwd. unfold modify. proj.
    erewrite bind_Done by (apply DefaultClient_Do_eq; proj; apply lookup_insert_eq).
    unfold sent. proj. cbn [ReadAll]. proj.
    unfold Buffer_Write, log, set_requests, set_buffers. proj.
    rewrite alter_insert_eq, !insert_insert_eq. change ("" +:+ data) with data.
    destruct (remote (trace s) _ _ _ data) as [a|e]; cbn [fst snd].
    + erewrite record_tail by (proj; apply lookup_insert_eq).
      unfold set_buffers, set_cassettes. proj. reflexivity.
    + destruct (reads_before_failure _ _ _ _ _); reflexivity.
  - cbn [fst snd].
    destruct (wire _ _ _ "") as [bytes|e]; [|reflexivity].
    destruct (ReadRequest bytes) as [cr|e]; [|reflexivity].
    destruct (ParseForm cr) as [cr' [e|]]; [reflexivity|].
    fwd. unfold new_Buffer. proj. fwd. proj.
    fwd. unfold modify. proj.
    erewrite bind_Done by (apply DefaultClient_Do_eq; proj; apply lookup_insert_eq).
    unfold sent. proj. cbn [ReadAll]. proj.
    unfold Buffer_Write, log, set_requests, set_buffers. proj.
    rewrite alter_insert_eq, !insert_insert_eq. change ("" +:+ "") with "".
    destruct (remote (trace s) _ _ _ "") as [a|e]; cbn [fst snd].
    + erewrite record_tail by (proj; apply lookup_insert_eq).
      unfold set_buffers, set_cassettes. proj. reflexivity.
    + destruct (reads_before_failure _ _ _ _ _); reflexivity.
Qed.

(** ** What the record path does *)

Lemma dumped_frame r req s :
  requests s !! r = Some req →
  cassettes (dumped r req s).2 = cassettes s ∧ fs (dumped r req s).2 = fs s ∧
  trace (dumped r req s).2 = trace s ∧ is_Some (requests (dumped r req s).2 !! r).
Proof.
  intros Hr. unfold dumped. destruct (http.Request.Body req) as [b|].
  - destruct (ReadAll b (buffers s)) as [[[data [e|]] rd] bufs]; proj;
      rewrite lookup_insert_eq; eauto.
  - proj. rewrite lookup_insert_eq. eauto.
Qed.

Lemma dumped_Ok r req s bytes s1 :
  dumped r req s = (Ok bytes, s1) →
  ∃ data bufs, drained req s = (data, None, bufs) ∧
    wire (http.Request.Method req) (http.Request.URL req) (http.Request.Header req) data
      = Ok bytes.
Proof.
  unfold dumped, drained. destruct (http.Request.Body req) as [b|].
  - destruct (ReadAll b (buffers s)) as [[[data [e|]] rd] bufs]; intros; simplify_eq.
    eauto.
  - intros; simplify_eq. eauto.
Qed.

Lemma drained_dumped r req s data bufs bytes :
  drained req s = (data, None, bufs) →
  wire (http.Request.Method req) (http.Request.URL req) (http.Request.Header req) data
    = Ok bytes →
  (dumped r req s).1 = Ok bytes.
Proof.
  unfold dumped, drained. destruct (http.Request.Body req) as [b|].
  - destruct (ReadAll b (buffers s)) as [[[data' [e|]] rd] bufs']; intros; by simplify_eq.
  - intros; by simplify_eq.
Qed.

(** A successful capture, read backwards: every step succeeded, the
    interaction is the exchange and the state is [recorded_state]. *)
Lemma requestHandler_record_Ok r c mode s i s' :
  mode ≠ ModeReplaying → requestHandler r c mode s = Done (Ok i) s' →
  ∃ req data bufs bytes cr cr' a cv,
    requests s !! r = Some req ∧
    drained req s = (data, None, bufs) ∧
    wire (http.Request.Method req) (http.Request.URL req) (http.Request.Header req) data
      = Ok bytes ∧
    ReadRequest bytes = Ok cr ∧
    ParseForm cr = (cr', None) ∧
    remote (trace s) (http.Request.Method req) (http.Request.URL req)
      (http.Request.Header req) data = Ok a ∧
    ans_BodyErr a = None ∧
    cassettes s !! c = Some cv ∧
    i = exchange req data (http.Request.PostForm cr') a ∧
    s' = recorded_state r c req data bufs cv i s.
Proof.
  intros Hmode H. destruct (requests s !! r) as [req|] eqn:Hr.
  2: { rewrite requestHandler_record_nil in H by done. discriminate. }
  rewrite (requestHandler_record_eq _ _ _ _ _ Hmode Hr) in H. unfold record_path in H.
  destruct (dumped r req s) as [[bytes|e] s1] eqn:Hd; [|discriminate].
  apply dumped_Ok in Hd as (data & bufs & Hdr & Hw). rewrite Hdr in H.
  destruct (ReadRequest bytes) as [cr|e] eqn:Hrr; [|discriminate].
  destruct (ParseForm cr) as [cr' [e|]] eqn:Hpf; [discriminate|].
  destruct (remote _ _ _ _ _) as [a|e] eqn:Hrem; [|discriminate].
  destruct (ans_BodyErr a) as [e|] eqn:Hbe; [discriminate|].
  destruct (cassettes s !! c) as [cv|] eqn:Hc; [|discriminate].
  simplify_eq. exists req, data, bufs, bytes, cr, cr', a, cv. done.
Qed.

(** A successful capture, read forwards. *)
Lemma requestHandler_record_run r c mode s req data bufs bytes cr cr' a cv :
  mode ≠ ModeReplaying →
  requests s !! r = Some req →
  drained req s = (data, None, bufs) →
  wire (http.Request.Method req) (http.Request.URL req) (http.Request.Header req) data
    = Ok bytes →
  ReadRequest bytes = Ok cr →
  ParseForm cr = (cr', None) →
  remote (trace s) (http.Request.Method req) (http.Request.URL req)
    (http.Request.Header req) data = Ok a →
  ans_BodyErr a = None →
  cassettes s !! c = Some cv →
  requestHandler r c mode s =
    Done (Ok (exchange req data (http.Request.PostForm cr') a))
      (recorded_state r c req data bufs cv
         (exchange req data (http.Request.PostForm cr') a) s).
Proof.
  intros Hmode Hr Hdr Hw Hrr Hpf Hrem Hbe Hc.
  rewrite (requestHandler_record_eq _ _ _ _ _ Hmode Hr). unfold record_path.
  pose proof (drained_dumped r _ _ _ _ _ Hdr Hw) as Hd.
  destruct (dumped r req s) as [rb s1]. simpl in Hd. subst rb.
  by rewrite Hrr, Hpf, Hdr, Hrem, Hbe, Hc.
Qed.

(** A failed real call, read forwards. *)
Lemma requestHandler_record_refused r c mode s req data bufs bytes cr cr' e :
  mode ≠ ModeReplaying →
  requests s !! r = Some req →
  drained req s = (data, None, bufs) →
  wire (http.Request.Method req) (http.Request.URL req) (http.Request.Header req) data
    = Ok bytes →
  ReadRequest bytes = Ok cr →
  ParseForm cr = (cr', None) →
  remote (trace s) (http.Request.Method req) (http.Request.URL req)
    (http.Request.Header req) data = Err e →
  requestHandler r c mode s =
    Done (Err e)
      (if reads_before_failure (trace s) (http.Request.Method req)
            (http.Request.URL req) (http.Request.Header req) data
       then called_state r req data bufs s else refused_state r req data bufs s).
Proof.
  intros Hmode Hr Hdr Hw Hrr Hpf Hrem.
  rewrite (requestHandler_record_eq _ _ _ _ _ Hmode Hr). unfold record_path.
  pose proof (drained_dumped r _ _ _ _ _ Hdr Hw) as Hd.
  destruct (dumped r req s) as [rb s1]. simpl in Hd. subst rb.
  by rewrite Hrr, Hpf, Hdr, Hrem.
Qed.

Lemma called_state_request r req data bufs s :
  is_Some (requests (called_state r req data bufs s) !! r).
Proof. unfold called_state. proj. rewrite lookup_insert_eq. eauto. Qed.

Lemma refused_state_request r req data bufs s :
  is_Some (requests (refused_state r req data bufs s) !! r).
Proof. unfold refused_state. proj. rewrite lookup_insert_eq. eauto. Qed.

(** A failed capture leaves the cassette and the storage as they were,
    and the request where it was. *)
Lemma requestHandler_record_Err r c mode s e s' :
  mode ≠ ModeReplaying → requestHandler r c mode s = Done (Err e) s' →
  cassettes s' = cassettes s ∧ fs s' = fs s ∧ is_Some (requests s' !! r).
Proof.
  intros Hmode H. destruct (requests s !! r) as [req|] eqn:Hr.
  2: { rewrite requestHandler_record_nil in H by done. discriminate. }
  rewrite (requestHandler_record_eq _ _ _ _ _ Hmode Hr) in H. unfold record_path in H.
  pose proof (dumped_frame r req s Hr) as (Hc & Hf & _ & Hq).
  destruct (dumped r req s) as [[bytes|e0] s1] eqn:Hd; proj; [|by simplify_eq].
  destruct (ReadRequest bytes) as [cr|e0]; [|by simplify_eq].
  destruct (ParseForm cr) as [cr' [e0|]]; [by simplify_eq|].
  destruct (drained req s) as [[data err] bufs].
  pose proof (called_state_request r req data bufs s) as Hcs.
  pose proof (refused_state_request r req data bufs s) as Hrs.
  destruct (remote _ _ _ _ _) as [a|e0].
  - destruct (ans_BodyErr a) as [e0|]; [by simplify_eq|].
    destruct (cassettes s !! c); discriminate.
  - destruct (reads_before_failure _ _ _ _ _); by simplify_eq.
Qed.

Lemma requestHandler_replay_Done r c s res s' :
  requestHandler r c ModeReplaying s = Done res s' →
  s' = s ∧ is_Some (requests s !! r).
Proof.
  unfold requestHandler. rewrite decide_True by reflexivity.
  unfold Cassette_GetInteraction. intros H.
  apply bind_inv in H as (cv & s1 & Hc & H). apply load_cassette_inv in Hc as [-> Hc].
  apply bind_inv in H as (req & s1 & Hr & H). apply load_request_inv in Hr as [-> Hr].
  destruct (find _ _); unfold mret, M_ret in H; simplify_eq; eauto.
Qed.

(** ** Creating and stopping a recorder *)

Lemma os_Stat_eq path s :
  os_Stat path s =
    Done (match fs s !! path with
          | None => Some (ENOENT path)
          | Some Forbidden => Some (EACCES path)
          | Some (File _) => None
          end) (log (EvStat path) s).
Proof.
  unfold os_Stat. run_monad. destruct (fs s !! path) as [[]|]; reflexivity.
Qed.

Lemma cassette_Load_eq name s :
  cassette_Load name s =
    match fs s !! (name +:+ ".yaml") with
    | None => Done (Err (ENOENT (name +:+ ".yaml"))) (loading name s)
    | Some Forbidden => Done (Err (EACCES (name +:+ ".yaml"))) (loading name s)
    | Some (File data) =>
        match unmarshal data with
        | Err e => Done (Err e) (loading name s)
        | Ok (v, l) =>
            Done (Ok (fresh (dom (cassettes s))))
              (set_cassettes
                 (insert (fresh (dom (cassettes s)))
                    (cassette.Cassette.mk name (name +:+ ".yaml") v l))
                 (loading name s))
        end
    end.
Proof.
  unfold cassette_Load, loading.
  erewrite bind_Done by reflexivity.
  erewrite bind_Done by (apply load_cassette_Some; proj; apply lookup_insert_eq).
  run_monad. cbn [cassette.Cassette.File].
  destruct (fs s !! (name +:+ ".yaml")) as [[data|]|]; try reflexivity.
  destruct (unmarshal data) as [[v l]|e]; reflexivity.
Qed.

Lemma New_eq name s :
  New name s =
    match fs s !! (name +:+ ".yaml") with
    | None =>
        Done (Ok (mkRecorder ModeRecording (fresh (dom (cassettes s)))
                    (mkTransport (fresh (dom (cassettes s))) ModeRecording)))
          (set_cassettes
             (insert (fresh (dom (cassettes s)))
                (cassette.Cassette.mk name (name +:+ ".yaml") 1 []))
             (log (EvStat (name +:+ ".yaml")) s))
    | Some Forbidden =>
        Done (Err (EACCES (name +:+ ".yaml")))
          (loading name (log (EvStat (name +:+ ".yaml")) s))
    | Some (File data) =>
        match unmarshal data with
        | Err e => Done (Err e) (loading name (log (EvStat (name +:+ ".yaml")) s))
        | Ok (v, l) =>
            Done (Ok (mkRecorder ModeReplaying (fresh (dom (cassettes s)))
                        (mkTransport (fresh (dom (cassettes s))) ModeReplaying)))
              (set_cassettes
                 (insert (fresh (dom (cassettes s)))
                    (cassette.Cassette.mk name (name +:+ ".yaml") v l))
                 (loading name (log (EvStat (name +:+ ".yaml")) s)))
        end
    end.
Proof.
  unfold New. erewrite bind_Done by apply os_Stat_eq.
  destruct (fs s !! (name +:+ ".yaml")) as [[data|]|] eqn:Hf; cbn [os_IsNotExist].
  - unfold mbind, M_bind. rewrite cassette_Load_eq. proj. rewrite Hf.
    destruct (unmarshal data) as [[v l]|e]; reflexivity.
  - unfold mbind, M_bind. rewrite cassette_Load_eq. proj. rewrite Hf. reflexivity.
  - reflexivity.
Qed.

Lemma Cassette_Save_eq c s cv :
  cassettes s !! c = Some cv →
  Cassette_Save c s =
    match marshal (cassette.Cassette.Version cv) (cassette.Cassette.Interactions cv) with
    | Err e => Done (Some e) s
    | Ok data =>
        match fs s !! cassette.Cassette.File cv with
        | Some Forbidden =>
            Done (Some (EACCES (cassette.Cassette.File cv)))
              (log (EvWrite (cassette.Cassette.File cv)) s)
        | _ =>
            Done None
              (set_fs (insert (cassette.Cassette.File cv) (File data))
                 (log (EvWrite (cassette.Cassette.File cv)) s))
        end
    end.
Proof.
  intros Hc. unfold Cassette_Save.
  erewrite bind_Done by (apply load_cassette_Some; exact Hc).
  destruct (marshal _ _) as [data|e]; [|reflexivity].
  run_monad. destruct (fs s !! cassette.Cassette.File cv) as [[]|]; reflexivity.
Qed.

Lemma Stop_recording rec s :
  mode rec = ModeRecording → Stop rec s = Cassette_Save (cassette_of rec) s.
Proof.
  intros Hm. unfold Stop. rewrite decide_True by done.
  unfold mbind, M_bind. destruct (Cassette_Save (cassette_of rec) s) as [[e|] s1|v s1];
    reflexivity.
Qed.

(** ** Round trips *)

Lemma RoundTrip_Ok_inv t r s resp s' :
  RoundTrip t r s = Done (Ok resp) s' →
  ∃ i, requestHandler r (c t) (t_mode t) s = Done (Ok i) s' ∧
    resp = http.Response.mk
      (cassette.Response.Status (cassette.Interaction.Response i))
      (cassette.Response.Code (cassette.Interaction.Response i))
      "HTTP/1.0" 1 0 r
      (cassette.Response.Headers (cassette.Interaction.Response i))
      true
      (Z.of_nat (String.length
                   (cassette.Response.Body (cassette.Interaction.Response i))))
      (NopCloser (BytesReader
                    (cassette.Response.Body (cassette.Interaction.Response i)))).
Proof.
  unfold RoundTrip. intros H.
  apply bind_inv in H as ([i|e] & s1 & Hh & H).
  - unfold mret, M_ret in H. simplify_eq. eauto.
  - unfold mbind, M_bind, panic in H. destruct (load_request r s1); discriminate.
Qed.

Lemma GetInteraction_eq c0 r s cv req :
  cassettes s !! c0 = Some cv → requests s !! r = Some req →
  Cassette_GetInteraction c0 r s =
    Done (match find (matches req) (cassette.Cassette.Interactions cv) with
          | Some i => Ok i
          | None => Err ErrInteractionNotFound
          end) s.
Proof.
  intros Hc Hr. unfold Cassette_GetInteraction.
  erewrite bind_Done by (apply load_cassette_Some; exact Hc).
  erewrite bind_Done by (apply load_request_Some; exact Hr).
  destruct (find _ _); reflexivity.
Qed.

Lemma ReadAll_dom b bufs : dom (ReadAll b bufs).2 = dom bufs.
Proof.
  induction b as [u|u e|b IH|b IH w]; cbn [ReadAll]; try reflexivity.
  - destruct (ReadAll b bufs) as [[[data err] rd] bufs']. exact IH.
  - destruct (ReadAll b bufs) as [[[data err] rd] bufs']. cbn [snd] in *.
    unfold Buffer_Write. by rewrite dom_alter_L.
Qed.

(** In replaying mode a round trip answers from the first stored
    interaction the matching policy accepts, and panics when there is
    none. *)
Lemma replay_first_match t r s cv req :
  t_mode t = ModeReplaying → cassettes s !! c t = Some cv → requests s !! r = Some req →
  match find (matches req) (cassette.Cassette.Interactions cv) with
  | Some i =>
      ∃ resp, RoundTrip t r s = Done (Ok resp) s ∧
        http.Response.StatusCode resp
          = cassette.Response.Code (cassette.Interaction.Response i) ∧
        http.Response.Header resp
          = cassette.Response.Headers (cassette.Interaction.Response i) ∧
        http.Response.Body resp
          = NopCloser (BytesReader
                         (cassette.Response.Body (cassette.Interaction.Response i)))
  | None => ∃ v, RoundTrip t r s = Panicked v s
  end.
Proof.
  intros Hm Hc Hr. unfold RoundTrip, requestHandler. rewrite Hm, decide_True by reflexivity.
  erewrite bind_Done by (eapply GetInteraction_eq; eassumption).
  destruct (find _ _) as [i|].
  - eexists. split; [reflexivity|]. cbn. done.
  - cbv beta iota. erewrite bind_Done by (apply load_request_Some; exact Hr).
    eexists. reflexivity.
Qed.

(** ** Main results *)

(** C1, as amended.  A failure inside the capture step is not returned
    from [RoundTrip]: the round trip panics, at the state the capture
    left, with a message made of the request's URL and the error; and
    [RoundTrip] returns no error result at all. *)
Theorem RoundTrip_failure_panics t r s e s1 :
  requestHandler r (c t) (t_mode t) s = Done (Err e) s1 →
  (∃ req, requests s1 !! r = Some req ∧
     RoundTrip t r s =
       Panicked (Errorf ("Failed to process request for URL "
                         +:+ http.Request.URL req +:+ ": " +:+ Error e)) s1) ∧
  (∀ e' s', RoundTrip t r s ≠ Done (Err e') s').
Proof.
  intros H.
  assert (is_Some (requests s1 !! r)) as [req Hreq].
  { destruct (decide (t_mode t = ModeReplaying)) as [Hm|Hm].
    - rewrite Hm in H. apply requestHandler_replay_Done in H as [-> ?]. done.
    - by apply requestHandler_record_Err in H as (_ & _ & ?). }
  assert (RoundTrip t r s =
          Panicked (Errorf ("Failed to process request for URL "
                            +:+ http.Request.URL req +:+ ": " +:+ Error e)) s1) as HR.
  { unfold RoundTrip. erewrite bind_Done by exact H. cbv beta iota.
    erewrite bind_Done by (apply load_request_Some; exact Hreq). reflexivity. }
  split; [eauto|]. intros e' s'. rewrite HR. discriminate.
Qed.

(** C3.  In replaying mode no sequence of round trips, cancellations and
    stops changes the cassettes or the storage, and none performs any
    input or output: the state at the end, also when a round trip
    panicked on the way, is the state at the start. *)
Theorem replay_changes_nothing rec ops s :
  mode rec = ModeReplaying → t_mode (transport_of rec) = ModeReplaying →
  cassettes (final (run rec ops s)) = cassettes s ∧
  fs (final (run rec ops s)) = fs s ∧
  trace (final (run rec ops s)) = trace s ∧
  Stop rec (final (run rec ops s)) = Done None s.
Proof.
  intros Hm Ht. rewrite (run_replay_final rec ops s Hm Ht).
  repeat split. apply Stop_replay. rewrite Hm. discriminate.
Qed.

(** C5.  In recording mode [Stop] is the save of the recorder's cassette:
    when the cassette encodes and the path accepts the write, the bytes
    are in storage and [Stop] succeeds; when encoding or writing fails,
    [Stop] returns that error and storage is as before.  In any other
    mode [Stop] succeeds and leaves the whole state, trace included, as
    it was. *)
Theorem Stop_persists_when_recording rec s :
  (mode rec = ModeRecording →
   ∀ cv, cassettes s !! cassette_of rec = Some cv →
     match marshal (cassette.Cassette.Version cv) (cassette.Cassette.Interactions cv) with
     | Err e => Stop rec s = Done (Some e) s
     | Ok data =>
         match fs s !! cassette.Cassette.File cv with
         | Some Forbidden =>
             ∃ s', Stop rec s = Done (Some (EACCES (cassette.Cassette.File cv))) s' ∧
                   fs s' = fs s
         | _ =>
             ∃ s', Stop rec s = Done None s' ∧
                   fs s' = <[cassette.Cassette.File cv := File data]> (fs s) ∧
                   trace s' = trace s ++ [EvWrite (cassette.Cassette.File cv)] ∧
                   cassettes s' = cassettes s
         end
     end) ∧
  (mode rec ≠ ModeRecording → Stop rec s = Done None s).
Proof.
  split; [|apply Stop_replay].
  intros Hm cv Hc. rewrite (Stop_recording _ _ Hm), (Cassette_Save_eq _ _ _ Hc).
  destruct (marshal _ _) as [data|e]; [|reflexivity].
  destruct (fs s !! cassette.Cassette.File cv) as [[]|]; eexists; eauto.
Qed.

(** C6.  In recording mode, when the capture reaches the real call and
    the destination cannot be reached, the capture function returns the
    network's error and appends nothing: cassettes and storage are as
    before. *)
Theorem network_failure_not_recorded r c0 m s req data bufs bytes cr cr' e :
  m ≠ ModeReplaying →
  requests s !! r = Some req →
  drained req s = (data, None, bufs) →
  wire (http.Request.Method req) (http.Request.URL req) (http.Request.Header req) data
    = Ok bytes →
  ReadRequest bytes = Ok cr →
  ParseForm cr = (cr', None) →
  remote (trace s) (http.Request.Method req) (http.Request.URL req)
    (http.Request.Header req) data = Err e →
  ∃ s', requestHandler r c0 m s = Done (Err e) s' ∧
        cassettes s' = cassettes s ∧ fs s' = fs s.
Proof.
  intros Hm Hr Hdr Hw Hrr Hpf Hrem. eexists. split.
  - eapply requestHandler_record_refused; eassumption.
  - destruct (reads_before_failure _ _ _ _ _); done.
Qed.

(** C7.  On a successful capture [RoundTrip] returns, at the state the
    capture left, a response with the interaction's status line, status
    code and headers, protocol HTTP/1.0, a fresh stream over the stored
    body bytes, the length of those bytes as content length, and
    [Close] set. *)
Theorem RoundTrip_synthesizes t r s i s1 :
  requestHandler r (c t) (t_mode t) s = Done (Ok i) s1 →
  ∃ resp, RoundTrip t r s = Done (Ok resp) s1 ∧
    http.Response.Status resp
      = cassette.Response.Status (cassette.Interaction.Response i) ∧
    http.Response.StatusCode resp
      = cassette.Response.Code (cassette.Interaction.Response i) ∧
    http.Response.Header resp
      = cassette.Response.Headers (cassette.Interaction.Response i) ∧
    http.Response.Proto resp = "HTTP/1.0" ∧
    http.Response.ProtoMajor resp = 1 ∧ http.Response.ProtoMinor resp = 0 ∧
    http.Response.Request resp = r ∧
    http.Response.Body resp
      = NopCloser (BytesReader (cassette.Response.Body (cassette.Interaction.Response i))) ∧
    (∀ bufs, (ReadAll (http.Response.Body resp) bufs).1.1
             = (cassette.Response.Body (cassette.Interaction.Response i), None)) ∧
    http.Response.ContentLength resp
      = Z.of_nat (String.length
                    (cassette.Response.Body (cassette.Interaction.Response i))) ∧
    http.Response.Close resp = true.
Proof.
  intros H. eexists. split.
  - unfold RoundTrip. erewrite bind_Done by exact H. reflexivity.
  - cbn. repeat split.
Qed.

(** C4.  [New] resolves the file [name.yaml].  With no such file it
    allocates a fresh, empty cassette and returns a recording recorder;
    with a file that decodes it returns a replaying recorder over the
    decoded cassette; with a file that does not decode, or a path that
    denies access, it returns the error and no recorder.  Whenever a
    recorder is returned its transport holds the recorder's own
    cassette and mode.  Storage is never changed. *)
Theorem New_creates_or_loads name s :
  match fs s !! (name +:+ ".yaml") with
  | None =>
      ∃ c0 s', New name s =
                 Done (Ok (mkRecorder ModeRecording c0 (mkTransport c0 ModeRecording))) s' ∧
        (c0 ∉ dom (cassettes s)) ∧ fs s' = fs s ∧
        cassettes s' !! c0 = Some (cassette.Cassette.mk name (name +:+ ".yaml") 1 [])
  | Some (File data) =>
      match unmarshal data with
      | Ok (v, l) =>
          ∃ c0 s', New name s =
                     Done (Ok (mkRecorder ModeReplaying c0 (mkTransport c0 ModeReplaying))) s' ∧
            (c0 ∉ dom (cassettes s)) ∧ fs s' = fs s ∧
            cassettes s' !! c0 = Some (cassette.Cassette.mk name (name +:+ ".yaml") v l)
      | Err e => ∃ s', New name s = Done (Err e) s' ∧ fs s' = fs s
      end
  | Some Forbidden =>
      ∃ s', New name s = Done (Err (EACCES (name +:+ ".yaml"))) s' ∧ fs s' = fs s
  end ∧
  ∀ rec s', New name s = Done (Ok rec) s' →
    c (transport_of rec) = cassette_of rec ∧ t_mode (transport_of rec) = mode rec.
Proof.
  rewrite New_eq. split.
  - destruct (fs s !! (name +:+ ".yaml")) as [[data|]|].
    + destruct (unmarshal data) as [[v l]|e]; [|by eauto].
      do 2 eexists. split; [reflexivity|]. proj.
      split; [apply is_fresh|]. split; [reflexivity|]. apply lookup_insert_eq.
    + eauto.
    + do 2 eexists. split; [reflexivity|]. proj.
      split; [apply is_fresh|]. split; [reflexivity|]. apply lookup_insert_eq.
  - intros rec s' H. destruct (fs s !! (name +:+ ".yaml")) as [[data|]|].
    + destruct (unmarshal data) as [[v l]|e]; by simplify_eq.
    + discriminate.
    + by simplify_eq.
Qed.

(** C10.  The mode follows the probe's error, not the file's existence.
    When [os.Stat] reports that the file does not exist, [New] returns
    a recording recorder and reads nothing.  On every other outcome of
    the probe, success or an error such as permission denied, [New]
    goes on to load the file and never returns a recording recorder. *)
Theorem New_mode_follows_probe name s :
  ∃ err s1, os_Stat (name +:+ ".yaml") s = Done err s1 ∧
    (if os_IsNotExist err
     then ∃ rec s', New name s = Done (Ok rec) s' ∧ mode rec = ModeRecording ∧
            trace s' = trace s ++ [EvStat (name +:+ ".yaml")]
     else trace (final (New name s))
            = trace s ++ [EvStat (name +:+ ".yaml"); EvRead (name +:+ ".yaml")] ∧
          ∀ rec s', New name s = Done (Ok rec) s' → mode rec = ModeReplaying) ∧
    (fs s !! (name +:+ ".yaml") = Some Forbidden →
     err = Some (EACCES (name +:+ ".yaml")) ∧ os_IsNotExist err = false).
Proof.
  rewrite os_Stat_eq, New_eq. do 2 eexists. split; [reflexivity|].
  destruct (fs s !! (name +:+ ".yaml")) as [[data|]|]; cbn [os_IsNotExist].
  - split; [|discriminate]. destruct (unmarshal data) as [[v l]|e]; cbn [final].
    + unfold loading. proj. split; [by rewrite <- app_assoc|]. intros; by simplify_eq.
    + unfold loading. proj. split; [by rewrite <- app_assoc|]. discriminate.
  - split; [|done]. unfold loading. cbn [final]. proj.
    split; [by rewrite <- app_assoc|]. discriminate.
  - split; [|discriminate]. eauto.
Qed.

(** C8, the code at a request without a body.  In recording mode the
    tee is installed all the same: [DumpRequestOut] has put
    [http.NoBody] where the body was nil before the test of [r.Body]
    is made, so after a successful capture the caller's request holds a
    tee over [http.NoBody] into a buffer that did not exist before.
    The tee captures nothing: the buffer is empty and so is the
    interaction's request body; and the missing body is no failure:
    when serialization and the real call succeed, so does the capture. *)
Theorem nil_body_is_teed r c0 m s req :
  m ≠ ModeReplaying → requests s !! r = Some req → http.Request.Body req = None →
  (∀ i s', requestHandler r c0 m s = Done (Ok i) s' →
     ∃ w, (w ∉ dom (buffers s)) ∧
       requests s' !! r =
         Some (http.Request.set_Body (Some (NopCloser (TeeReader NoBody w))) req) ∧
       buffers s' !! w = Some "" ∧
       cassette.Request.Body (cassette.Interaction.Request i) = "") ∧
  (∀ bytes cr cr' a cv,
     wire (http.Request.Method req) (http.Request.URL req) (http.Request.Header req) ""
       = Ok bytes →
     ReadRequest bytes = Ok cr →
     ParseForm cr = (cr', None) →
     remote (trace s) (http.Request.Method req) (http.Request.URL req)
       (http.Request.Header req) "" = Ok a →
     ans_BodyErr a = None →
     cassettes s !! c0 = Some cv →
     ∃ i s', requestHandler r c0 m s = Done (Ok i) s' ∧
             cassette.Request.Body (cassette.Interaction.Request i) = "").
Proof.
  intros Hm Hr Hb.
  assert (drained req s = ("", None, buffers s)) as Hdr by (unfold drained; by rewrite Hb).
  split.
  - intros i s' H.
    apply (requestHandler_record_Ok _ _ _ _ _ _ Hm) in H
      as (req' & data & bufs & bytes & cr & cr' & a & cv & Hr' & Hdr' & _ & _ & _ & _ & _
            & _ & -> & ->).
    rewrite Hr in Hr'. injection Hr' as <-. rewrite Hdr in Hdr'. injection Hdr' as <- <-.
    exists (fresh (dom (buffers s))). split; [apply is_fresh|].
    unfold recorded_state, called_state, copied. proj. rewrite Hb.
    by rewrite !lookup_insert_eq.
  - intros bytes cr cr' a cv Hw Hrr Hpf Hrem Hbe Hc. do 2 eexists. split.
    + eapply requestHandler_record_run; eassumption.
    + reflexivity.
Qed.

(** C9.  In recording mode, after a successful capture of a request that
    came with a body, the caller's request object holds a different
    body: a tee, with nothing left to read, into a buffer that did not
    exist before; the buffer holds the bytes of the original body, and
    they are the interaction's request body. *)
Theorem body_replaced_by_tee r c0 m s req b i s' :
  m ≠ ModeReplaying → requests s !! r = Some req → http.Request.Body req = Some b →
  requestHandler r c0 m s = Done (Ok i) s' →
  ∃ w, (w ∉ dom (buffers s)) ∧
    requests s' !! r =
      Some (http.Request.set_Body
              (Some (NopCloser (TeeReader (NopCloser (BytesReader "")) w))) req) ∧
    buffers s' !! w = Some (ReadAll b (buffers s)).1.1.1 ∧
    cassette.Request.Body (cassette.Interaction.Request i) = (ReadAll b (buffers s)).1.1.1.
Proof.
  intros Hm Hr Hb H.
  apply (requestHandler_record_Ok _ _ _ _ _ _ Hm) in H
    as (req' & data & bufs & bytes & cr & cr' & a & cv & Hr' & Hdr & _ & _ & _ & _ & _
          & _ & -> & ->).
  rewrite Hr in Hr'. injection Hr' as <-.
  unfold drained in Hdr. rewrite Hb in Hdr.
  pose proof (ReadAll_dom b (buffers s)) as Hdom.
  destruct (ReadAll b (buffers s)) as [[[data' err] rd] bufs']. cbn [fst snd] in *.
  injection Hdr as -> -> ->.
  exists (fresh (dom bufs)). split; [rewrite Hdom; apply is_fresh|].
  unfold recorded_state, called_state, copied. proj. rewrite Hb.
  by rewrite !lookup_insert_eq.
Qed.

(** ** Further results: frames and outcomes of a round trip *)

Lemma RoundTrip_final t r s :
  final (RoundTrip t r s) = final (requestHandler r (c t) (t_mode t) s).
Proof.
  unfold RoundTrip, mbind, M_bind.
  destruct (requestHandler r (c t) (t_mode t) s) as [[i|e] s1|v s1]; try reflexivity.
  unfold load_request, panic. destruct (requests s1 !! r); reflexivity.
Qed.

Lemma RoundTrip_never_Err t r s e s' : RoundTrip t r s ≠ Done (Err e) s'.
Proof.
  unfold RoundTrip, mbind, M_bind.
  destruct (requestHandler r (c t) (t_mode t) s) as [[i|e0] s1|v s1]; try discriminate.
  unfold load_request, panic. destruct (requests s1 !! r); discriminate.
Qed.

Lemma dumped_result r req s data bufs :
  drained req s = (data, None, bufs) →
  (dumped r req s).1 =
    wire (http.Request.Method req) (http.Request.URL req) (http.Request.Header req) data.
Proof.
  unfold dumped, drained. destruct (http.Request.Body req) as [b|].
  - destruct (ReadAll b (buffers s)) as [[[data' [e|]] rd] bufs']; intros; by simplify_eq.
  - intros; by simplify_eq.
Qed.

Lemma record_path_fs r c0 req s :
  requests s !! r = Some req → fs (final (record_path r c0 req s)) = fs s.
Proof.
  intros Hr. unfold record_path.
  pose proof (dumped_frame r req s Hr) as (_ & Hf & _ & _).
  destruct (dumped r req s) as [[bytes|e] s1]; cbn [snd] in Hf; [|exact Hf].
  destruct (ReadRequest bytes) as [cr|e]; [|exact Hf].
  destruct (ParseForm cr) as [cr' [e|]]; [exact Hf|].
  destruct (drained req s) as [[data err] bufs].
  destruct (remote _ _ _ _ _) as [a|e];
    [|destruct (reads_before_failure _ _ _ _ _); reflexivity].
  destruct (ans_BodyErr a); [reflexivity|].
  destruct (cassettes s !! c0); reflexivity.
Qed.

Lemma requestHandler_fs r c0 m s : fs (final (requestHandler r c0 m s)) = fs s.
Proof.
  destruct (decide (m = ModeReplaying)) as [->|Hm].
  - by rewrite requestHandler_replay_final.
  - destruct (requests s !! r) as [req|] eqn:Hr.
    + rewrite (requestHandler_record_eq _ _ _ _ _ Hm Hr). by apply record_path_fs.
    + by rewrite requestHandler_record_nil.
Qed.

(** X3.  A round trip never touches durable storage, in either mode and
    whether it returns or panics: what is captured stays in memory. *)
Theorem RoundTrip_keeps_storage t r s : fs (final (RoundTrip t r s)) = fs s.
Proof. rewrite RoundTrip_final. apply requestHandler_fs. Qed.

(** X4.  A successful capture is faithful: the interaction carries the
    method, URL and headers of the request and the status line, code,
    headers and body bytes the client's call ended in for that
    request. *)
Theorem capture_is_faithful r c0 m s req i s' :
  m ≠ ModeReplaying → requests s !! r = Some req →
  requestHandler r c0 m s = Done (Ok i) s' →
  ∃ a,
    remote (trace s) (http.Request.Method req) (http.Request.URL req)
      (http.Request.Header req)
      (cassette.Request.Body (cassette.Interaction.Request i)) = Ok a ∧
    cassette.Request.Method (cassette.Interaction.Request i) = http.Request.Method req ∧
    cassette.Request.URL (cassette.Interaction.Request i) = http.Request.URL req ∧
    cassette.Request.Headers (cassette.Interaction.Request i) = http.Request.Header req ∧
    cassette.Response.Status (cassette.Interaction.Response i) = ans_Status a ∧
    cassette.Response.Code (cassette.Interaction.Response i) = ans_StatusCode a ∧
    cassette.Response.Headers (cassette.Interaction.Response i) = ans_Header a ∧
    cassette.Response.Body (cassette.Interaction.Response i) = ans_Body a.
Proof.
  intros Hm Hr H.
  apply (requestHandler_record_Ok _ _ _ _ _ _ Hm) in H
    as (req' & data & bufs & bytes & cr & cr' & a & cv & Hr' & _ & _ & _ & _ & Hrem & _
          & _ & -> & ->).
  rewrite Hr in Hr'. injection Hr' as <-.
  exists a. cbn. repeat split; try reflexivity. exact Hrem.
Qed.

(** X5.  In recording mode the caller gets the destination's answer:
    the response of a round trip that returns has the status line, the
    code, the headers and the body bytes the destination sent, under
    protocol HTTP/1.0 whatever the destination spoke. *)
Theorem recording_returns_upstream t r s req resp s' :
  t_mode t ≠ ModeReplaying → requests s !! r = Some req →
  RoundTrip t r s = Done (Ok resp) s' →
  ∃ a data,
    remote (trace s) (http.Request.Method req) (http.Request.URL req)
      (http.Request.Header req) data = Ok a ∧
    http.Response.Status resp = ans_Status a ∧
    http.Response.StatusCode resp = ans_StatusCode a ∧
    http.Response.Header resp = ans_Header a ∧
    http.Response.Body resp = NopCloser (BytesReader (ans_Body a)) ∧
    http.Response.ContentLength resp = Z.of_nat (String.length (ans_Body a)) ∧
    http.Response.Proto resp = "HTTP/1.0".
Proof.
  intros Hm Hr H. apply RoundTrip_Ok_inv in H as (i & H & ->).
  apply (requestHandler_record_Ok _ _ _ _ _ _ Hm) in H
    as (req' & data & bufs & bytes & cr & cr' & a & cv & Hr' & _ & _ & _ & _ & Hrem & _
          & _ & -> & ->).
  rewrite Hr in Hr'. injection Hr' as <-.
  exists a, data. cbn. repeat split; try reflexivity. exact Hrem.
Qed.

(** X6.  In recording mode a request that cannot be serialized, copied
    or form-parsed fails before any network traffic: the capture returns
    that error, the trace has no send, and cassettes and storage are as
    before. *)
Theorem serialization_failure_sends_nothing r c0 m s req data bufs e :
  m ≠ ModeReplaying → requests s !! r = Some req →
  drained req s = (data, None, bufs) →
  (wire (http.Request.Method req) (http.Request.URL req) (http.Request.Header req) data
     = Err e ∨
   ∃ bytes,
     wire (http.Request.Method req) (http.Request.URL req) (http.Request.Header req) data
       = Ok bytes ∧
     (ReadRequest bytes = Err e ∨
      ∃ cr cr', ReadRequest bytes = Ok cr ∧ ParseForm cr = (cr', Some e))) →
  ∃ s', requestHandler r c0 m s = Done (Err e) s' ∧
        trace s' = trace s ∧ cassettes s' = cassettes s ∧ fs s' = fs s.
Proof.
  intros Hm Hr Hdr HF.
  rewrite (requestHandler_record_eq _ _ _ _ _ Hm Hr). unfold record_path.
  pose proof (dumped_frame r req s Hr) as (Hc & Hf & Ht & _).
  pose proof (dumped_result r _ _ _ _ Hdr) as Hd.
  destruct (dumped r req s) as [rb s1]. cbn [fst snd] in *. subst rb.
  destruct HF as [-> | (bytes & -> & [-> | (cr & cr' & -> & ->)])]; eauto.
Qed.

(** X7.  In recording mode, when the destination answers but the read of
    the response body fails, the capture returns the read error and
    appends nothing, although the request was sent. *)
Theorem body_read_failure_not_recorded r c0 m s req data bufs bytes cr cr' a e :
  m ≠ ModeReplaying → requests s !! r = Some req →
  drained req s = (data, None, bufs) →
  wire (http.Request.Method req) (http.Request.URL req) (http.Request.Header req) data
    = Ok bytes →
  ReadRequest bytes = Ok cr →
  ParseForm cr = (cr', None) →
  remote (trace s) (http.Request.Method req) (http.Request.URL req)
    (http.Request.Header req) data = Ok a →
  ans_BodyErr a = Some e →
  ∃ s', requestHandler r c0 m s = Done (Err e) s' ∧
        cassettes s' = cassettes s ∧ fs s' = fs s ∧
        trace s' = trace s ++ [EvSend (http.Request.Method req) (http.Request.URL req)].
Proof.
  intros Hm Hr Hdr Hw Hrr Hpf Hrem Hbe.
  rewrite (requestHandler_record_eq _ _ _ _ _ Hm Hr). unfold record_path.
  pose proof (drained_dumped r _ _ _ _ _ Hdr Hw) as Hd.
  destruct (dumped r req s) as [rb s1]. simpl in Hd. subst rb.
  rewrite Hrr, Hpf, Hdr, Hrem, Hbe. eexists. split; [reflexivity|]. done.
Qed.

(** X12.  A round trip on a nil request panics with a nil dereference
    before anything happens: the state is the one it started in. *)
Theorem RoundTrip_nil_request t r s :
  requests s !! r = None → RoundTrip t r s = Panicked nil_deref s.
Proof.
  intros Hr. unfold RoundTrip.
  apply bind_Panicked_run.
  destruct (decide (t_mode t = ModeReplaying)) as [Hm|Hm].
  - rewrite Hm. unfold requestHandler. rewrite decide_True by reflexivity.
    unfold Cassette_GetInteraction, mbind, M_bind, load_cassette, load_request.
    destruct (cassettes s !! c t); [|reflexivity]. by rewrite Hr.
  - by apply requestHandler_record_nil.
Qed.

(** ** Further results: sessions *)

Lemma Stop_frame rec s :
  requests (final (Stop rec s)) = requests s ∧
  cassettes (final (Stop rec s)) = cassettes s ∧
  buffers (final (Stop rec s)) = buffers s.
Proof.
  destruct (decide (mode rec = ModeRecording)) as [Hm|Hm].
  - rewrite (Stop_recording _ _ Hm).
    destruct (cassettes s !! cassette_of rec) as [cv|] eqn:Hc.
    + rewrite (Cassette_Save_eq _ _ _ Hc).
      destruct (marshal _ _) as [data|e]; [|done].
      destruct (fs s !! cassette.Cassette.File cv) as [[]|]; done.
    + unfold Cassette_Save, mbind, M_bind, load_cassette. by rewrite Hc.
  - by rewrite Stop_replay.
Qed.

(** One operation of a recording recorder: the cassette keeps what it
    held and gains one interaction for a round trip, none otherwise. *)
Lemma step_recording rec o s s1 cv :
  t_mode (transport_of rec) = ModeRecording →
  c (transport_of rec) = cassette_of rec →
  cassettes s !! cassette_of rec = Some cv →
  step rec o s = Done tt s1 →
  ∃ l, cassettes s1 !! cassette_of rec
         = Some (cassette.Cassette.set_Interactions
                   (cassette.Cassette.Interactions cv ++ l) cv) ∧
       length l = round_trips [o].
Proof.
  intros Ht Hc Hcv H. destruct o as [r|r|]; cbn [step round_trips] in *.
  - apply bind_inv in H as (res & s2 & HR & H). unfold mret, M_ret in H.
    injection H as <-. destruct res as [resp|e]; [|by apply RoundTrip_never_Err in HR].
    apply RoundTrip_Ok_inv in HR as (i & HR & _). rewrite Ht, Hc in HR.
    apply requestHandler_record_Ok in HR
      as (req & data & bufs & bytes & cr & cr' & a & cv' & _ & _ & _ & _ & _ & _ & _
            & Hcv' & _ & ->); [|discriminate].
    rewrite Hcv in Hcv'. injection Hcv' as <-.
    eexists [_]. split; [|reflexivity].
    unfold recorded_state. cbn [cassettes set_cassettes]. apply lookup_insert_eq.
  - unfold CancelRequest, mret, M_ret in H. injection H as <-.
    exists []. split; [|reflexivity]. rewrite Hcv, app_nil_r. by destruct cv.
  - apply bind_inv in H as (res & s2 & HS & H). unfold mret, M_ret in H.
    injection H as <-. pose proof (Stop_frame rec s) as (_ & Hcs & _).
    rewrite HS in Hcs. cbn [final] in Hcs.
    exists []. split; [|reflexivity]. rewrite Hcs, Hcv, app_nil_r. by destruct cv.
Qed.

Lemma run_recording rec ops s s1 cv :
  t_mode (transport_of rec) = ModeRecording →
  c (transport_of rec) = cassette_of rec →
  cassettes s !! cassette_of rec = Some cv →
  run rec ops s = Done tt s1 →
  ∃ l, cassettes s1 !! cassette_of rec
         = Some (cassette.Cassette.set_Interactions
                   (cassette.Cassette.Interactions cv ++ l) cv) ∧
       length l = round_trips ops.
Proof.
  intros Ht Hc. revert s cv. induction ops as [|o ops IH]; intros s cv Hcv H.
  - cbn in H. injection H as <-. exists []. split; [|reflexivity].
    rewrite Hcv, app_nil_r. by destruct cv.
  - cbn [run] in H. apply bind_inv in H as ([] & s2 & Hstep & H).
    destruct (step_recording _ _ _ _ _ Ht Hc Hcv Hstep) as (l1 & Hcv1 & Hl1).
    destruct (IH _ _ Hcv1 H) as (l2 & Hcv2 & Hl2).
    exists (l1 ++ l2). split.
    + rewrite Hcv2. cbn. by rewrite app_assoc.
    + rewrite length_app, Hl1, Hl2. by destruct o.
Qed.

(** X1.  In recording mode, a sequence of round trips, cancellations and
    stops that runs to its end leaves the cassette with everything it
    held, in place and in order, followed by exactly one interaction
    per round trip: nothing is dropped, merged or reordered. *)
Theorem recording_appends_in_order rec ops s s1 cv :
  t_mode (transport_of rec) = ModeRecording →
  c (transport_of rec) = cassette_of rec →
  cassettes s !! cassette_of rec = Some cv →
  run rec ops s = Done tt s1 →
  ∃ cv1 l, cassettes s1 !! cassette_of rec = Some cv1 ∧
    cassette.Cassette.Interactions cv1 = cassette.Cassette.Interactions cv ++ l ∧
    length l = round_trips ops ∧
    cassette.Cassette.Name cv1 = cassette.Cassette.Name cv ∧
    cassette.Cassette.File cv1 = cassette.Cassette.File cv ∧
    cassette.Cassette.Version cv1 = cassette.Cassette.Version cv.
Proof.
  intros Ht Hc Hcv H.
  destruct (run_recording _ _ _ _ _ Ht Hc Hcv H) as (l & Hcv1 & Hl).
  eexists _, l. split; [exact Hcv1|]. done.
Qed.

(** X2.  A whole recording session: with no cassette file, a recorder is
    created, operations run to their end and the recorder is stopped
    without error.  Then the file holds the encoding of a cassette with
    exactly one interaction per round trip, and that cassette is the
    one in memory. *)
Theorem session_is_persisted name ops s0 rec s1 s2 s3 :
  fs s0 !! (name +:+ ".yaml") = None →
  New name s0 = Done (Ok rec) s1 →
  run rec ops s1 = Done tt s2 →
  Stop rec s2 = Done None s3 →
  ∃ l data,
    length l = round_trips ops ∧
    cassettes s3 !! cassette_of rec
      = Some (cassette.Cassette.mk name (name +:+ ".yaml") 1 l) ∧
    marshal 1 l = Ok data ∧
    fs s3 !! (name +:+ ".yaml") = Some (File data).
Proof.
  intros Hfs HNew Hrun HStop.
  rewrite New_eq, Hfs in HNew. injection HNew as <- <-.
  cbn [cassette_of transport_of] in *.
  eapply run_recording in Hrun as (l & Hcv & Hl);
    [|reflexivity|reflexivity|cbn [cassettes set_cassettes log]; apply lookup_insert_eq].
  unfold cassette.Cassette.set_Interactions in Hcv.
  cbn [cassette_of cassette.Cassette.Interactions
       cassette.Cassette.Name cassette.Cassette.File cassette.Cassette.Version app]
    in Hcv.
  rewrite Stop_recording in HStop by reflexivity. cbn [cassette_of] in HStop.
  rewrite (Cassette_Save_eq _ _ _ Hcv) in HStop.
  cbn [cassette.Cassette.Version cassette.Cassette.Interactions cassette.Cassette.File]
    in HStop.
  destruct (marshal 1 l) as [data|e] eqn:Hmar; [|discriminate].
  exists l, data. split; [exact Hl|].
  destruct (fs s2 !! (name +:+ ".yaml")) as [[]|]; simplify_eq;
    cbn [cassettes fs set_fs log]; rewrite lookup_insert_eq; done.
Qed.

(** X9.  [Stop] touches nothing but storage and the trace: requests,
    cassettes and buffers are as before in every mode and on every
    outcome, so a stopped recorder goes on working as it did. *)
Theorem Stop_keeps_memory rec s :
  requests (final (Stop rec s)) = requests s ∧
  cassettes (final (Stop rec s)) = cassettes s ∧
  buffers (final (Stop rec s)) = buffers s.
Proof. apply Stop_frame. Qed.

(** X10.  [New] creates no file.  When it returned a recording recorder,
    a second [New] for the same name, before any [Stop], returns another
    recording recorder with a cassette of its own, and the first
    recorder's cassette is untouched. *)
Theorem New_twice_both_recording name s r1 s1 :
  New name s = Done (Ok r1) s1 → mode r1 = ModeRecording →
  ∃ r2 s2, New name s1 = Done (Ok r2) s2 ∧ mode r2 = ModeRecording ∧
    cassette_of r2 ≠ cassette_of r1 ∧
    cassettes s2 !! cassette_of r1 = cassettes s1 !! cassette_of r1 ∧
    fs s2 = fs s.
Proof.
  intros H Hm. rewrite New_eq in H.
  destruct (fs s !! (name +:+ ".yaml")) as [[data|]|] eqn:Hfs.
  - destruct (unmarshal data) as [[v l]|e]; by simplify_eq.
  - discriminate.
  - injection H as <- <-. rewrite New_eq. cbn [fs set_cassettes log]. rewrite Hfs.
    do 2 eexists. split; [reflexivity|]. cbn [mode cassette_of cassettes fs set_cassettes log].
    assert (fresh (dom (<[fresh (dom (cassettes s)) :=
                           cassette.Cassette.mk name (name +:+ ".yaml") 1 []]>
                          (cassettes s)))
            ≠ fresh (dom (cassettes s))) as Hne.
    { intros Heq.
      apply (is_fresh (dom (<[fresh (dom (cassettes s)) :=
                                cassette.Cassette.mk name (name +:+ ".yaml") 1 []]>
                               (cassettes s)))).
      rewrite Heq, dom_insert_L. set_solver. }
    repeat split; [exact Hne|]. by rewrite lookup_insert_ne.
Qed.

(** X11.  The request object is spent by a capture.  After a successful
    capture of a request that came with a body, a second capture of the
    same request object in recording mode, when it succeeds, records an
    empty request body. *)
Theorem resend_captures_empty_body r c0 m s req b i1 s1 i2 s2 :
  m ≠ ModeReplaying → requests s !! r = Some req → http.Request.Body req = Some b →
  requestHandler r c0 m s = Done (Ok i1) s1 →
  requestHandler r c0 m s1 = Done (Ok i2) s2 →
  cassette.Request.Body (cassette.Interaction.Request i1) = (ReadAll b (buffers s)).1.1.1 ∧
  cassette.Request.Body (cassette.Interaction.Request i2) = "".
Proof.
  intros Hm Hr Hb H1 H2.
  apply (requestHandler_record_Ok _ _ _ _ _ _ Hm) in H1
    as (req' & data & bufs & bytes & cr & cr' & a & cv & Hr' & Hdr & _ & _ & _ & _ & _
          & _ & -> & ->).
  rewrite Hr in Hr'. injection Hr' as <-.
  apply (requestHandler_record_Ok _ _ _ _ _ _ Hm) in H2
    as (req2 & data2 & bufs2 & bytes2 & cr2 & cr2' & a2 & cv2 & Hr2 & Hdr2 & _ & _ & _ & _
          & _ & _ & -> & _).
  unfold recorded_state, called_state, copied in Hr2, Hdr2.
  cbn [requests buffers set_cassettes] in Hr2, Hdr2.
  rewrite lookup_insert_eq in Hr2. injection Hr2 as <-.
  unfold drained in Hdr, Hdr2. rewrite Hb in Hdr.
  cbn [http.Request.Body http.Request.set_Body] in Hdr2. rewrite Hb in Hdr2.
  cbn [ReadAll] in Hdr2. injection Hdr2 as <- _.
  destruct (ReadAll b (buffers s)) as [[[data' err] rd] bufs']. injection Hdr as -> _ _.
  split; reflexivity.
Qed.

(** ** The round-trip law *)

Lemma find_first {A} (P : A → bool) (l1 : list A) x l2 :
  Forall (λ j, P j = false) l1 → P x = true → find P (l1 ++ x :: l2) = Some x.
Proof.
  intros Hl Hx. induction Hl as [|j l1 Hj _ IH]; cbn [app find].
  - by rewrite Hx.
  - by rewrite Hj.
Qed.

(** C2, as amended.  A recording session: with no cassette file a
    recorder is created, operations run before and after the round
    trip of a request, and the recorder is stopped without error.  The
    round trip records the answer of the destination, as the last
    interaction of the cassette at that moment, and the file written at
    the stop holds it.  A fresh recorder over the same storage, in any
    store, replays: for a request that the matching policy accepts for
    that interaction and for none recorded before it, the round trip
    returns the status line, code, headers and body of the recording
    round trip's response, which are the destination's.  The file
    format must decode what it encoded for the saved cassette. *)
Theorem record_then_replay name pre post r req s0 rec1 s1 sa resp1 sb s2 s3 sB r2 req2 :
  fs s0 !! (name +:+ ".yaml") = None →
  New name s0 = Done (Ok rec1) s1 →
  run rec1 pre s1 = Done tt sa →
  requests sa !! r = Some req →
  RoundTrip (transport_of rec1) r sa = Done (Ok resp1) sb →
  run rec1 post sb = Done tt s2 →
  Stop rec1 s2 = Done None s3 →
  (∀ cv data, cassettes s2 !! cassette_of rec1 = Some cv →
     marshal (cassette.Cassette.Version cv) (cassette.Cassette.Interactions cv) = Ok data →
     unmarshal data = Ok (cassette.Cassette.Version cv, cassette.Cassette.Interactions cv)) →
  fs sB = fs s3 →
  requests sB !! r2 = Some req2 →
  (∀ cv, cassettes sa !! cassette_of rec1 = Some cv →
     Forall (λ j, matches req2 j = false) (cassette.Cassette.Interactions cv)) →
  (∀ cv i, cassettes sb !! cassette_of rec1 = Some cv →
     last (cassette.Cassette.Interactions cv) = Some i → matches req2 i = true) →
  ∃ a data i cvb l bytes rec2 s4 resp2,
    remote (trace sa) (http.Request.Method req) (http.Request.URL req)
      (http.Request.Header req) data = Ok a ∧
    cassette.Interaction.Response i
      = cassette.Response.mk (ans_Body a) (ans_Header a) (ans_Status a) (ans_StatusCode a) ∧
    cassettes sb !! cassette_of rec1 = Some cvb ∧
    last (cassette.Cassette.Interactions cvb) = Some i ∧
    i ∈ l ∧ marshal 1 l = Ok bytes ∧
    fs s3 !! (name +:+ ".yaml") = Some (File bytes) ∧
    New name sB = Done (Ok rec2) s4 ∧
    mode rec2 = ModeReplaying ∧
    RoundTrip (transport_of rec2) r2 s4 = Done (Ok resp2) s4 ∧
    http.Response.StatusCode resp2 = http.Response.StatusCode resp1 ∧
    http.Response.StatusCode resp1 = ans_StatusCode a ∧
    http.Response.Status resp2 = http.Response.Status resp1 ∧
    http.Response.Status resp1 = ans_Status a ∧
    http.Response.Header resp2 = http.Response.Header resp1 ∧
    http.Response.Header resp1 = ans_Header a ∧
    http.Response.Body resp2 = http.Response.Body resp1 ∧
    http.Response.Body resp1 = NopCloser (BytesReader (ans_Body a)) ∧
    http.Response.ContentLength resp2 = http.Response.ContentLength resp1.
Proof.
  intros Hfs HNew Hpre Hr HRT Hpost HStop Hcodec HfsB Hr2 Hbefore Hmatch.
  rewrite New_eq, Hfs in HNew. injection HNew as <- <-.
  cbn [transport_of cassette_of] in *.
  set (c1 := fresh (dom (cassettes s0))) in *.
  set (cv0 := cassette.Cassette.mk name (name +:+ ".yaml") 1 []) in *.
  eapply (run_recording (mkRecorder ModeRecording c1 (mkTransport c1 ModeRecording)))
    in Hpre as (lpre & Hcva & _);
    [|reflexivity|reflexivity|cbn [cassette_of cassettes set_cassettes log];
                              apply lookup_insert_eq].
  cbn [cassette_of] in Hcva.
  apply RoundTrip_Ok_inv in HRT as (i & Hh & ->). cbn [c t_mode] in Hh.
  apply requestHandler_record_Ok in Hh
    as (req' & data & bufs & bytes & cr & cr' & a & cva & Hr' & _ & _ & _ & _ & Hrem & _
          & Hcva' & Hi & ->); [|discriminate].
  rewrite Hr in Hr'. injection Hr' as <-.
  rewrite Hcva in Hcva'. injection Hcva' as <-.
  specialize (Hbefore _ Hcva).
  assert (cassettes (recorded_state r c1 req data bufs
            (cassette.Cassette.set_Interactions
               (cassette.Cassette.Interactions cv0 ++ lpre) cv0) i sa) !! c1
          = Some (cassette.Cassette.mk name (name +:+ ".yaml") 1 (lpre ++ [i]))) as Hcvb.
  { unfold recorded_state. cbn [cassettes set_cassettes]. apply lookup_insert_eq. }
  specialize (Hmatch _ i Hcvb (last_snoc _ _)).
  eapply (run_recording (mkRecorder ModeRecording c1 (mkTransport c1 ModeRecording)))
    in Hpost as (lpost & Hcv2 & _); [|reflexivity|reflexivity|exact Hcvb].
  cbn [cassette_of] in Hcv2. unfold cassette.Cassette.set_Interactions in Hcv2.
  cbn [cassette.Cassette.Name cassette.Cassette.File cassette.Cassette.Version
       cassette.Cassette.Interactions] in Hcv2.
  rewrite Stop_recording in HStop by reflexivity. cbn [cassette_of] in HStop.
  rewrite (Cassette_Save_eq _ _ _ Hcv2) in HStop.
  cbn [cassette.Cassette.Version cassette.Cassette.Interactions cassette.Cassette.File]
    in HStop.
  destruct (marshal 1 ((lpre ++ [i]) ++ lpost)) as [bytes0|e] eqn:Hmar; [|discriminate].
  specialize (Hcodec _ bytes0 Hcv2 Hmar).
  cbn [cassette.Cassette.Version cassette.Cassette.Interactions] in Hcodec.
  assert (fs s3 !! (name +:+ ".yaml") = Some (File bytes0)) as Hfile.
  { destruct (fs s2 !! (name +:+ ".yaml")) as [[]|]; simplify_eq;
      cbn [fs set_fs log]; apply lookup_insert_eq. }
  cbn [cassette.Cassette.Interactions app] in Hbefore.
  assert (find (matches req2) ((lpre ++ [i]) ++ lpost) = Some i) as Hfind.
  { rewrite <- app_assoc. cbn [app]. by apply find_first. }
  exists a, data, i, (cassette.Cassette.mk name (name +:+ ".yaml") 1 (lpre ++ [i])),
    ((lpre ++ [i]) ++ lpost), bytes0.
  rewrite New_eq, HfsB, Hfile, Hcodec.
  do 3 eexists.
  split; [exact Hrem|]. split; [by rewrite Hi|]. split; [exact Hcvb|].
  split; [apply last_snoc|]. split; [set_solver|]. split; [exact Hmar|].
  split; [reflexivity|]. split; [reflexivity|]. split; [reflexivity|].
  cbn [transport_of]. split.
  - unfold RoundTrip. cbn [c t_mode].
    erewrite bind_Done.
    2: { unfold requestHandler. rewrite decide_True by reflexivity.
         eapply GetInteraction_eq.
         - cbn [cassettes set_cassettes]. apply lookup_insert_eq.
         - unfold loading. cbn [requests set_cassettes log]. exact Hr2. }
    cbn [cassette.Cassette.Interactions]. rewrite Hfind. reflexivity.
  - rewrite Hi. cbn. done.
Qed.

End Properties.

(** * The results on the fake backend *)

Section OnTheFakeBackend.

Import Fake.

(** C1 as stated fails: replaying from an empty cassette, the capture
    returns the lookup-miss error and the round trip panics. *)
Lemma RoundTrip_panics_on_lookup_miss :
  requestHandler 1%positive (c (transport_of player)) (t_mode (transport_of player))
    (store []) = Done (Err ErrInteractionNotFound) (store []) ∧
  RoundTrip (transport_of player) 1%positive (store []) =
    Panicked (Errorf "Failed to process request for URL http://example.test/a: requested interaction not found")
      (store []).
Proof. split; vm_compute; reflexivity. Qed.

(** C2 as stated fails when the same request is recorded twice with
    different answers: the second round trip records 500 and [second],
    the file holds both interactions, the policy accepts the second
    one, and the fresh recorder replays 200 and [first]. *)
Lemma second_recording_is_not_replayed :
  @New Twice.world "demo" s0 = Done (Ok taper) Twice.created ∧
  (∃ resp, @RoundTrip Twice.world (transport_of taper) 1%positive Twice.created
             = Done (Ok resp) Twice.once ∧
           http.Response.StatusCode resp = 200) ∧
  @RoundTrip Twice.world (transport_of taper) 1%positive Twice.once
    = Done (Ok (Twice.failed 1%positive)) Twice.twice ∧
  cassettes Twice.twice !! cassette_of taper
    = Some (cassette.Cassette.mk "demo" "demo.yaml" 1 [Twice.get_first; Twice.get_second]) ∧
  @Stop Twice.world taper Twice.twice = Done None Twice.stopped ∧
  fs Twice.stopped !! "demo.yaml" = Some (File "same") ∧
  @unmarshal Twice.world "same" = Ok (1, [Twice.get_first; Twice.get_second]) ∧
  @matches Twice.world get_a Twice.get_second = true ∧
  http.Response.StatusCode (Twice.failed 1%positive) = 500 ∧
  http.Response.Body (Twice.failed 1%positive) = NopCloser (BytesReader "second") ∧
  ∃ s4 resp2,
    @New Twice.world "demo" (restarted Twice.stopped) = Done (Ok player) s4 ∧
    @RoundTrip Twice.world (transport_of player) 7%positive s4 = Done (Ok resp2) s4 ∧
    http.Response.StatusCode resp2 = 200 ∧
    http.Response.Body resp2 = NopCloser (BytesReader "first").
Proof.
  repeat split; try (vm_compute; reflexivity).
  - eexists. split; vm_compute; reflexivity.
  - do 2 eexists. repeat split; vm_compute; reflexivity.
Qed.

Lemma record_then_replay_witness :
  ∃ a data i cvb l bytes rec2 s4 resp2,
    @remote Twice.world (trace Twice.posted_once) (http.Request.Method get_a)
      (http.Request.URL get_a) (http.Request.Header get_a) data = Ok a ∧
    cassette.Interaction.Response i
      = cassette.Response.mk (ans_Body a) (ans_Header a) (ans_Status a) (ans_StatusCode a) ∧
    cassettes Twice.then_got !! cassette_of taper = Some cvb ∧
    last (cassette.Cassette.Interactions cvb) = Some i ∧
    i ∈ l ∧ @marshal Twice.world 1 l = Ok bytes ∧
    fs Twice.then_stopped !! ("demo" +:+ ".yaml") = Some (File bytes) ∧
    @New Twice.world "demo" (restarted Twice.then_stopped) = Done (Ok rec2) s4 ∧
    mode rec2 = ModeReplaying ∧
    @RoundTrip Twice.world (transport_of rec2) 7%positive s4 = Done (Ok resp2) s4 ∧
    http.Response.StatusCode resp2 = http.Response.StatusCode (Twice.failed 1%positive) ∧
    http.Response.StatusCode (Twice.failed 1%positive) = ans_StatusCode a ∧
    http.Response.Status resp2 = http.Response.Status (Twice.failed 1%positive) ∧
    http.Response.Status (Twice.failed 1%positive) = ans_Status a ∧
    http.Response.Header resp2 = http.Response.Header (Twice.failed 1%positive) ∧
    http.Response.Header (Twice.failed 1%positive) = ans_Header a ∧
    http.Response.Body resp2 = http.Response.Body (Twice.failed 1%positive) ∧
    http.Response.Body (Twice.failed 1%positive) = NopCloser (BytesReader (ans_Body a)) ∧
    http.Response.ContentLength resp2
      = http.Response.ContentLength (Twice.failed 1%positive).
Proof.
  apply (record_then_replay (W:=Twice.world) "demo"
           [OpRoundTrip 2%positive] [OpCancelRequest 1%positive] 1%positive get_a
           s0 taper Twice.created Twice.posted_once (Twice.failed 1%positive)
           Twice.then_got Twice.then_idle Twice.then_stopped
           (restarted Twice.then_stopped) 7%positive get_a);
    try (vm_compute; reflexivity).
  - intros cv data Hcv Hm. vm_compute in Hcv. injection Hcv as <-.
    vm_compute in Hm. injection Hm as <-. vm_compute. reflexivity.
  - intros cv Hcv. vm_compute in Hcv. injection Hcv as <-.
    repeat constructor.
  - intros cv i Hcv Hi. vm_compute in Hcv. injection Hcv as <-.
    vm_compute in Hi. injection Hi as <-. vm_compute. reflexivity.
Defined.

Lemma RoundTrip_failure_panics_witness :
  (∃ req, requests (store []) !! 1%positive = Some req ∧
     RoundTrip (transport_of player) 1%positive (store []) =
       Panicked (Errorf ("Failed to process request for URL "
                         +:+ http.Request.URL req +:+ ": "
                         +:+ Error ErrInteractionNotFound)) (store [])) ∧
  (∀ e' s', RoundTrip (transport_of player) 1%positive (store []) ≠ Done (Err e') s').
Proof.
  apply (RoundTrip_failure_panics (W:=world) (transport_of player) 1%positive (store [])
           ErrInteractionNotFound (store [])).
  vm_compute. reflexivity.
Defined.

Lemma replay_changes_nothing_witness :
  cassettes (final (run player
     [OpRoundTrip 1%positive; OpCancelRequest 1%positive; OpStop; OpRoundTrip 3%positive]
     (store [recorded]))) = cassettes (store [recorded]) ∧
  fs (final (run player
     [OpRoundTrip 1%positive; OpCancelRequest 1%positive; OpStop; OpRoundTrip 3%positive]
     (store [recorded]))) = fs (store [recorded]) ∧
  trace (final (run player
     [OpRoundTrip 1%positive; OpCancelRequest 1%positive; OpStop; OpRoundTrip 3%positive]
     (store [recorded]))) = trace (store [recorded]) ∧
  Stop player (final (run player
     [OpRoundTrip 1%positive; OpCancelRequest 1%positive; OpStop; OpRoundTrip 3%positive]
     (store [recorded]))) = Done None (store [recorded]).
Proof.
  apply (replay_changes_nothing (W:=world) player
           [OpRoundTrip 1%positive; OpCancelRequest 1%positive; OpStop; OpRoundTrip 3%positive]
           (store [recorded])); reflexivity.
Defined.

Lemma Stop_persists_when_recording_witness :
  ∃ s', Stop taper (store [recorded]) = Done None s' ∧
        fs s' !! "demo.yaml" = Some (File "recorded") ∧
        trace s' = [EvWrite "demo.yaml"].
Proof.
  destruct (proj1 (Stop_persists_when_recording (W:=world) taper (store [recorded])) eq_refl
              (cassette.Cassette.mk "demo" "demo.yaml" 1 [recorded]) eq_refl)
    as (s' & HS & Hfs & Htr & _).
  exists s'. split; [exact HS|]. split; [|exact Htr].
  rewrite Hfs. reflexivity.
Defined.

Lemma network_failure_not_recorded_witness :
  ∃ s', requestHandler 3%positive 1%positive ModeRecording (store []) =
          Done (Err (Errorf "dial tcp: connection refused")) s' ∧
        cassettes s' = cassettes (store []) ∧ fs s' = fs (store []).
Proof.
  apply (network_failure_not_recorded (W:=world) 3%positive 1%positive ModeRecording (store [])
           get_down "" ∅ "GET http://unreachable.test/ "
           (http.Request.mk "GET" "/a" ∅ None ∅) (http.Request.mk "GET" "/a" ∅ None ∅)
           (Errorf "dial tcp: connection refused"));
    first [discriminate | vm_compute; reflexivity].
Defined.

Lemma RoundTrip_synthesizes_witness :
  ∃ resp, RoundTrip (transport_of player) 1%positive (store [recorded])
            = Done (Ok resp) (store [recorded]) ∧
    http.Response.Status resp = "200 OK" ∧
    http.Response.StatusCode resp = 200 ∧
    http.Response.Proto resp = "HTTP/1.0" ∧
    http.Response.Body resp = NopCloser (BytesReader "ok") ∧
    http.Response.ContentLength resp = 2 ∧
    http.Response.Close resp = true.
Proof.
  destruct (RoundTrip_synthesizes (W:=world) (transport_of player) 1%positive (store [recorded])
              recorded (store [recorded]) ltac:(vm_compute; reflexivity))
    as (resp & HR & H1 & H2 & _ & H4 & _ & _ & _ & H8 & _ & H10 & H11).
  exists resp. repeat split; assumption.
Defined.

Lemma nil_body_is_teed_witness :
  ∃ w, (w ∉ dom (buffers (store []))) ∧
    requests (final (requestHandler 1%positive 1%positive ModeRecording (store [])))
      !! 1%positive =
      Some (http.Request.set_Body (Some (NopCloser (TeeReader NoBody w))) get_a) ∧
    buffers (final (requestHandler 1%positive 1%positive ModeRecording (store []))) !! w
      = Some "" ∧
    cassette.Request.Body (cassette.Interaction.Request recorded) = "".
Proof.
  apply (proj1 (nil_body_is_teed (W:=world) 1%positive 1%positive ModeRecording (store [])
                  get_a ltac:(discriminate) eq_refl eq_refl)
           recorded (final (requestHandler 1%positive 1%positive ModeRecording (store [])))).
  vm_compute. reflexivity.
Defined.

Lemma body_replaced_by_tee_witness :
  ∃ w, (w ∉ dom (buffers (store []))) ∧
    requests (final (requestHandler 2%positive 1%positive ModeRecording (store [])))
      !! 2%positive =
      Some (http.Request.set_Body
              (Some (NopCloser (TeeReader (NopCloser (BytesReader "")) w))) post_a) ∧
    buffers (final (requestHandler 2%positive 1%positive ModeRecording (store []))) !! w
      = Some (ReadAll (BytesReader "x=1") (buffers (store []))).1.1.1 ∧
    cassette.Request.Body (cassette.Interaction.Request posted)
      = (ReadAll (BytesReader "x=1") (buffers (store []))).1.1.1.
Proof.
  apply (body_replaced_by_tee (W:=world) 2%positive 1%positive ModeRecording (store []) post_a
           (BytesReader "x=1") posted
           (final (requestHandler 2%positive 1%positive ModeRecording (store []))));
    first [discriminate | vm_compute; reflexivity].
Defined.

(** ** Further results on the fake and the faulty backends *)

Lemma recording_appends_in_order_witness :
  ∃ cv1 l,
    cassettes (final (run taper
        [OpRoundTrip 1%positive; OpCancelRequest 1%positive; OpStop; OpRoundTrip 1%positive]
        (store []))) !! cassette_of taper = Some cv1 ∧
    cassette.Cassette.Interactions cv1
      = cassette.Cassette.Interactions (cassette.Cassette.mk "demo" "demo.yaml" 1 []) ++ l ∧
    length l = round_trips
        [OpRoundTrip 1%positive; OpCancelRequest 1%positive; OpStop; OpRoundTrip 1%positive] ∧
    cassette.Cassette.Name cv1 = "demo" ∧
    cassette.Cassette.File cv1 = "demo.yaml" ∧
    cassette.Cassette.Version cv1 = 1.
Proof.
  apply (recording_appends_in_order (W:=world) taper
           [OpRoundTrip 1%positive; OpCancelRequest 1%positive; OpStop; OpRoundTrip 1%positive]
           (store []) _ (cassette.Cassette.mk "demo" "demo.yaml" 1 []));
    vm_compute; reflexivity.
Defined.

Lemma session_is_persisted_witness :
  ∃ l data,
    length l = round_trips [OpRoundTrip 1%positive; OpCancelRequest 1%positive] ∧
    cassettes (final (Stop taper (final (run taper
        [OpRoundTrip 1%positive; OpCancelRequest 1%positive] (final (New "demo" s0))))))
      !! cassette_of taper
      = Some (cassette.Cassette.mk "demo" ("demo" +:+ ".yaml") 1 l) ∧
    marshal 1 l = Ok data ∧
    fs (final (Stop taper (final (run taper
        [OpRoundTrip 1%positive; OpCancelRequest 1%positive] (final (New "demo" s0))))))
      !! ("demo" +:+ ".yaml") = Some (File data).
Proof.
  apply (session_is_persisted (W:=world) "demo"
           [OpRoundTrip 1%positive; OpCancelRequest 1%positive] s0 taper
           (final (New "demo" s0))
           (final (run taper [OpRoundTrip 1%positive; OpCancelRequest 1%positive]
                     (final (New "demo" s0)))));
    vm_compute; reflexivity.
Defined.

Lemma capture_is_faithful_witness :
  ∃ a,
    remote [] "GET" "http://example.test/a" ∅
      (cassette.Request.Body (cassette.Interaction.Request recorded)) = Ok a ∧
    cassette.Request.Method (cassette.Interaction.Request recorded) = "GET" ∧
    cassette.Request.URL (cassette.Interaction.Request recorded) = "http://example.test/a" ∧
    cassette.Request.Headers (cassette.Interaction.Request recorded) = ∅ ∧
    cassette.Response.Status (cassette.Interaction.Response recorded) = ans_Status a ∧
    cassette.Response.Code (cassette.Interaction.Response recorded) = ans_StatusCode a ∧
    cassette.Response.Headers (cassette.Interaction.Response recorded) = ans_Header a ∧
    cassette.Response.Body (cassette.Interaction.Response recorded) = ans_Body a.
Proof.
  apply (capture_is_faithful (W:=world) 1%positive 1%positive ModeRecording (store [])
           get_a recorded
           (final (requestHandler 1%positive 1%positive ModeRecording (store []))));
    first [discriminate | vm_compute; reflexivity].
Defined.

Lemma recording_returns_upstream_witness :
  ∃ a data,
    remote [] "GET" "http://example.test/a" ∅ data = Ok a ∧
    http.Response.Status (replayed 1%positive) = ans_Status a ∧
    http.Response.StatusCode (replayed 1%positive) = ans_StatusCode a ∧
    http.Response.Header (replayed 1%positive) = ans_Header a ∧
    http.Response.Body (replayed 1%positive) = NopCloser (BytesReader (ans_Body a)) ∧
    http.Response.ContentLength (replayed 1%positive)
      = Z.of_nat (String.length (ans_Body a)) ∧
    http.Response.Proto (replayed 1%positive) = "HTTP/1.0".
Proof.
  apply (recording_returns_upstream (W:=world) (transport_of taper) 1%positive (store [])
           get_a (replayed 1%positive)
           (final (RoundTrip (transport_of taper) 1%positive (store []))));
    first [discriminate | vm_compute; reflexivity].
Defined.

Lemma serialization_failure_sends_nothing_witness :
  ∃ s', @requestHandler Faulty.forms 1%positive 1%positive ModeRecording (store [])
          = Done (Err (Errorf "invalid semicolon separator in query")) s' ∧
        trace s' = trace (store []) ∧ cassettes s' = cassettes (store []) ∧
        fs s' = fs (store []).
Proof.
  apply (serialization_failure_sends_nothing (W:=Faulty.forms) 1%positive 1%positive
           ModeRecording (store []) get_a "" ∅
           (Errorf "invalid semicolon separator in query"));
    [discriminate | reflexivity | reflexivity |].
  right. exists "GET http://example.test/a ". split; [reflexivity|].
  right. exists (http.Request.mk "GET" "/a" ∅ None ∅), (http.Request.mk "GET" "/a" ∅ None ∅).
  split; reflexivity.
Defined.

Lemma body_read_failure_not_recorded_witness :
  ∃ s', @requestHandler Faulty.cut 1%positive 1%positive ModeRecording (store [])
          = Done (Err (Errorf "unexpected EOF")) s' ∧
        cassettes s' = cassettes (store []) ∧ fs s' = fs (store []) ∧
        trace s' = trace (store []) ++ [EvSend "GET" "http://example.test/a"].
Proof.
  apply (body_read_failure_not_recorded (W:=Faulty.cut) 1%positive 1%positive
           ModeRecording (store []) get_a "" ∅ "GET http://example.test/a "
           (http.Request.mk "GET" "/a" ∅ None ∅) (http.Request.mk "GET" "/a" ∅ None ∅)
           (mkAnswer "200 OK" 200 ∅ "o" (Some (Errorf "unexpected EOF")))
           (Errorf "unexpected EOF"));
    first [discriminate | reflexivity].
Defined.

Lemma New_twice_both_recording_witness :
  ∃ r2 s2, New "demo" (final (New "demo" s0)) = Done (Ok r2) s2 ∧
    mode r2 = ModeRecording ∧
    cassette_of r2 ≠ cassette_of taper ∧
    cassettes s2 !! cassette_of taper
      = cassettes (final (New "demo" s0)) !! cassette_of taper ∧
    fs s2 = fs s0.
Proof.
  apply (New_twice_both_recording (W:=world) "demo" s0 taper (final (New "demo" s0)));
    vm_compute; reflexivity.
Defined.

Lemma resend_captures_empty_body_witness :
  cassette.Request.Body (cassette.Interaction.Request posted)
    = (ReadAll (BytesReader "x=1") (buffers (store []))).1.1.1 ∧
  cassette.Request.Body
    (cassette.Interaction.Request
       (cassette.Interaction.mk
          (cassette.Request.mk "" ∅ ∅ "http://example.test/a" "POST")
          (cassette.Interaction.Response posted))) = "".
Proof.
  apply (resend_captures_empty_body (W:=world) 2%positive 1%positive ModeRecording
           (store []) post_a (BytesReader "x=1") posted
           (final (requestHandler 2%positive 1%positive ModeRecording (store [])))
           _
           (final (requestHandler 2%positive 1%positive ModeRecording
                     (final (requestHandler 2%positive 1%positive ModeRecording
                               (store []))))));
    first [discriminate | vm_compute; reflexivity].
Defined.

Lemma RoundTrip_nil_request_witness :
  RoundTrip (transport_of taper) 9%positive (store []) = Panicked nil_deref (store []).
Proof.
  apply (RoundTrip_nil_request (W:=world) (transport_of taper) 9%positive (store [])).
  reflexivity.
Defined.

End OnTheFakeBackend.
